(** * EMD IoT backend: the ingestion-and-query service of [backend/server.py]

    A shallow embedding of the Flask handlers and of the SQL statements they
    run against the [sensor_readings] table, followed by the properties of
    the service.

    Layout:
    - [Platform]: the arithmetic and text conversions of Python and SQLite
      the handlers rely on (IEEE doubles, [int()], [round()], date text);
    - JSON values, SQLite values, parameter binding and column affinity;
    - the database, a small error monad over it and the SQL statements;
    - the handlers [init_database], [receive_sensor_data],
      [get_sensor_data], [get_latest], [get_stats], and the vocabulary the
      properties are stated in;
    - [Exact] and [Scenario]: a platform and requests to run the model on;
    - lemmas on ordering, reading back, ingestion and aggregation;
    - the properties, and their instances at the requests of [Scenario]. *)

From Stdlib Require Import Ascii String ZArith QArith Sorting.Sorted.
From stdpp Require Import base option list gmap strings pretty sorting.

Set Warnings "-register-all".
Local Open Scope Z_scope.

(** ** Platform

    [real] stands for Python [float] and SQLite REAL, IEEE-754 binary64.
    Everything below is stated for an arbitrary platform: no property proved
    in this file depends on how doubles round or how numbers are printed. *)

Class Platform (real : Type) := {
  (** [math.isnan]; SQLite stores a NaN parameter as NULL. *)
  is_nan : real → bool;
  (** [x == 0.0], the falsy doubles of Python. *)
  is_zero : real → bool;
  (** Conversion of a 64-bit integer to a double. *)
  of_int : Z → real;
  (** [Some i] when the double is an integer that converts to a 64-bit
      integer and back without loss (INTEGER affinity). *)
  to_int_exact : real → option Z;
  (** Comparison of two doubles and of an integer with a double, as SQLite
      orders numeric values. *)
  real_compare : real → real → comparison;
  int_real_compare : Z → real → comparison;
  (** The arithmetic of [AVG] over the numeric values it was fed. *)
  mean : list (Z + real) → real;
  (** Python [round(x, 1)] on a float. *)
  round1 : real → real;
  (** A text that is a well-formed integer or real literal, as SQLite reads
      it when a numeric column receives text. *)
  parse_num : string → option (Z + real);
  (** The numeric value [AVG] gives to a text (its numeric prefix, else 0). *)
  text_as_real : string → real;
  (** SQLite's rendering of a REAL stored in a TEXT column. *)
  text_of_real : real → string;
  (** ['YYYY-MM-DD HH:MM:SS'] (UTC) of an instant counted in seconds. *)
  datetime_text : Z → string;
  (** Python [int(s)]: [None] when it raises [ValueError]. *)
  py_int : string → option Z;
}.

(** ** Values *)

Section Service.
Context {real : Type} {platform : Platform real}.

(** What [request.get_json()] and [jsonify] exchange. A JSON object is a
    Python [dict]. *)
Inductive json :=
  | JNull
  | JBool (b : bool)
  | JInt (z : Z)
  | JFloat (x : real)
  | JStr (s : string)
  | JArr (l : list json)
  | JObj (m : gmap string json).

(** A value stored in a SQLite cell (no BLOB: JSON carries no bytes). *)
Inductive sqlval :=
  | SNull
  | SInt (z : Z)
  | SReal (x : real)
  | SText (s : string).

(** The exceptions the handlers can meet, with the text [str(e)] shows. *)
Inductive exn_kind :=
  | BadRequest        (* werkzeug: the body is not JSON *)
  | AttributeError    (* [.get] on something that is not a dict *)
  | ProgrammingError  (* sqlite3: parameter of an unsupported type *)
  | OverflowError     (* sqlite3: integer beyond 64 bits *)
  | UnicodeEncodeError (* sqlite3: a str that UTF-8 cannot encode *)
  | OperationalError  (* sqlite3: no such table, I/O failure *)
  | TypeError.        (* [round] on a str *)

Record exn := Raise { kind : exn_kind; str : string }.

Definition int64 (z : Z) : bool :=
  (-9223372036854775808 <=? z) && (z <=? 9223372036854775807).

(** A Python [str] is kept as its UTF-8 bytes. [json.loads] turns an
    unpaired [\udXXX] escape into a lone surrogate, which the model keeps as
    the three bytes [ED A0..BF 80..BF] of its [surrogatepass] encoding; no
    well-formed UTF-8 text has a byte [A0..BF] after [ED]. A [str] can be
    encoded as UTF-8 exactly when it holds no surrogate. *)
Definition byte_value (c : ascii) : Z := Z.of_N (N_of_ascii c).

Fixpoint encodable (s : string) : bool :=
  match s with
  | EmptyString => true
  | String c rest =>
      match rest with
      | EmptyString => true
      | String c' _ =>
          if (byte_value c =? 237) && (160 <=? byte_value c') && (byte_value c' <=? 191)
          then false
          else encodable rest
      end
  end.

(** How the [sqlite3] module binds a Python value to the [n]-th [?]
    placeholder: [None], [int] (and [bool], its subclass), [float] and [str]
    are supported; an [int] must fit 64 bits, a [str] is handed over as
    UTF-8 and must be encodable, a NaN is stored as NULL; lists and dicts
    are refused. The text of [UnicodeEncodeError] also names the character
    and its position, which the model leaves out. *)
Definition bind (n : Z) (j : json) : exn + sqlval :=
  match j with
  | JNull => inr SNull
  | JBool b => inr (SInt (if b then 1 else 0))
  | JInt z =>
      if int64 z then inr (SInt z)
      else inl (Raise OverflowError "Python int too large to convert to SQLite INTEGER")
  | JFloat x => inr (if is_nan x then SNull else SReal x)
  | JStr s =>
      if encodable s then inr (SText s)
      else inl (Raise UnicodeEncodeError
                  "'utf-8' codec can't encode character: surrogates not allowed")
  | JArr _ =>
      inl (Raise ProgrammingError
             ("Error binding parameter " +:+ pretty n +:+ ": type 'list' is not supported"))
  | JObj _ =>
      inl (Raise ProgrammingError
             ("Error binding parameter " +:+ pretty n +:+ ": type 'dict' is not supported"))
  end.

(** Column affinities of the schema: [TEXT], [REAL], [INTEGER]. *)
Inductive affinity := AffText | AffReal | AffInteger.

Definition integer_if_exact (x : real) : sqlval :=
  match to_int_exact x with Some z => SInt z | None => SReal x end.

(** What a REAL column gives back for a double: a double that is an exact
    64-bit integer passes through that integer, which only shows on
    negative zero (read back as [0.0]); any other double is kept. *)
Definition real_readback (x : real) : real :=
  match to_int_exact x with Some z => of_int z | None => x end.

(** The conversion SQLite applies to a value on its way into a column. *)
Definition apply_affinity (a : affinity) (v : sqlval) : sqlval :=
  match a, v with
  | AffText, SInt z => SText (pretty z)
  | AffText, SReal x => SText (text_of_real x)
  | AffReal, SInt z => SReal (of_int z)
  | AffReal, SReal x => SReal (real_readback x)
  | AffReal, SText s =>
      match parse_num s with
      | Some (inl z) => SReal (of_int z)
      | Some (inr x) => SReal x
      | None => SText s
      end
  | AffInteger, SReal x => integer_if_exact x
  | AffInteger, SText s =>
      match parse_num s with
      | Some (inl z) => SInt z
      | Some (inr x) => integer_if_exact x
      | None => SText s
      end
  | _, _ => v
  end.

(** What [fetchall]/[fetchone] hand to Python and [jsonify] prints. *)
Definition to_json (v : sqlval) : json :=
  match v with
  | SNull => JNull
  | SInt z => JInt z
  | SReal x => JFloat x
  | SText s => JStr s
  end.

(** ** The table

    [CREATE TABLE sensor_readings (id INTEGER PRIMARY KEY AUTOINCREMENT,
    timestamp DATETIME DEFAULT CURRENT_TIMESTAMP, device_id TEXT,
    temperature REAL, humidity REAL, gas_analog INTEGER, gas_digital INTEGER)].

    The handlers never write [timestamp] themselves, so the column only ever
    holds what [CURRENT_TIMESTAMP] produced: a fixed-width UTC text with a
    resolution of one second. Such texts compare as the instants they denote,
    and the model keeps the instant (in seconds). *)
Record Row := mkRow {
  row_id : Z;
  row_timestamp : Z;
  row_device_id : sqlval;
  row_temperature : sqlval;
  row_humidity : sqlval;
  row_gas_analog : sqlval;
  row_gas_digital : sqlval;
}.

(** The database file: the table, when it has been created, with its rows in
    rowid order, and the [sqlite_sequence] counter of AUTOINCREMENT (the
    largest id ever handed out). *)
Record Db := mkDb {
  db_table : option (list Row);
  db_seq : Z;
}.


(** What a request sees of the world: the clock of the server and whether
    the storage fails under it, with the message SQLite reports.
    [io_fault] is a failure that shows when the file is opened or a
    statement is prepared (the file cannot be opened or read);
    [write_fault] is a failure that shows only when a write runs or commits
    (the database is locked, the disk is full), after the parameters of the
    statement were bound. *)
Record Env := mkEnv {
  now : Z;
  io_fault : option string;
  write_fault : option string;
}.

(** ** Error monad over the database

    A statement either raises, and then nothing was committed, or returns a
    value and the database it leaves. *)
Definition M (A : Type) : Type := Db → exn + (A * Db).

Definition ret {A} (a : A) : M A := λ db, inr (a, db).
Definition raise {A} (e : exn) : M A := λ _, inl e.
Definition bind_M {A B} (m : M A) (k : A → M B) : M B :=
  λ db, match m db with
        | inl e => inl e
        | inr (a, db') => k a db'
        end.
Definition lift {A} (r : exn + A) : M A :=
  match r with inl e => raise e | inr a => ret a end.

Notation "'let*' x := m 'in' k" := (bind_M m (λ x, k))
  (at level 10, x pattern, m at level 100, k at level 200).

(** ** SQL statements *)

(** [sqlite3.connect] and the reads behind [execute]: when the medium
    fails the statement raises and nothing is committed. *)
Definition connect (env : Env) : M unit :=
  match io_fault env with
  | Some msg => raise (Raise OperationalError msg)
  | None => ret tt
  end.

(** The writes behind [execute] and [commit] of a statement that changes
    the table: when they fail the statement raises and nothing is
    committed. *)
Definition run_write (env : Env) : M unit :=
  match write_fault env with
  | Some msg => raise (Raise OperationalError msg)
  | None => ret tt
  end.

(** Preparing a statement on [sensor_readings] needs the table. *)
Definition sensor_readings : M (list Row) :=
  λ db, match db_table db with
        | Some rows => inr (rows, db)
        | None => inl (Raise OperationalError "no such table: sensor_readings")
        end.

(** [CREATE TABLE IF NOT EXISTS sensor_readings (...)]. *)
Definition create_table_if_not_exists : M unit :=
  λ db, match db_table db with
        | Some _ => inr (tt, db)
        | None => inr (tt, mkDb (Some []) (db_seq db))
        end.

Definition max_rowid (rows : list Row) : Z :=
  foldr (λ r m, Z.max (row_id r) m) 0 rows.

(** AUTOINCREMENT: one more than the largest id the table ever held. *)
Definition next_rowid (rows : list Row) (seq : Z) : Z :=
  Z.max seq (max_rowid rows) + 1.

(** [INSERT INTO sensor_readings (device_id, temperature, humidity,
    gas_analog, gas_digital) VALUES (?, ?, ?, ?, ?)] followed by [commit]:
    the five parameters are bound in order, [id] and [timestamp] take their
    defaults, and each value passes through the affinity of its column. *)
Definition insert_reading (env : Env)
    (device_id temperature humidity gas_analog gas_digital : json) : M unit :=
  let* rows := sensor_readings in
  let* d := lift (bind 1 device_id) in
  let* t := lift (bind 2 temperature) in
  let* h := lift (bind 3 humidity) in
  let* ga := lift (bind 4 gas_analog) in
  let* gd := lift (bind 5 gas_digital) in
  let* _ := run_write env in
  λ db,
    let i := next_rowid rows (db_seq db) in
    let r := mkRow i (now env)
               (apply_affinity AffText d)
               (apply_affinity AffReal t) (apply_affinity AffReal h)
               (apply_affinity AffInteger ga) (apply_affinity AffInteger gd) in
    inr (tt, mkDb (Some (rows ++ [r])) i).

(** [ORDER BY timestamp DESC] under a [LIMIT]: SQLite scans the table in
    rowid order and files every row in an index keyed by the timestamp
    (descending) and then by the order of arrival, so a row goes behind all
    rows that are at least as recent as it is. *)
Fixpoint insert_by_timestamp (r : Row) (sorted : list Row) : list Row :=
  match sorted with
  | [] => [r]
  | x :: rest =>
      if row_timestamp x <? row_timestamp r then r :: sorted
      else x :: insert_by_timestamp r rest
  end.

Definition order_by_timestamp_desc (rows : list Row) : list Row :=
  fold_left (λ sorted r, insert_by_timestamp r sorted) rows [].

(** [LIMIT n]: a negative [n] means no limit. *)
Definition sql_limit {A} (n : Z) (l : list A) : list A :=
  if n <? 0 then l else take (Z.to_nat n) l.

(** [SELECT id, timestamp, device_id, temperature, humidity, gas_analog,
    gas_digital FROM sensor_readings ORDER BY timestamp DESC LIMIT ?]. *)
Definition select_recent (limit : Z) : M (list Row) :=
  let* rows := sensor_readings in
  let* _ := lift (bind 1 (JInt limit)) in
  ret (sql_limit limit (order_by_timestamp_desc rows)).

(** [SELECT timestamp, temperature, humidity, gas_analog, gas_digital FROM
    sensor_readings ORDER BY timestamp DESC LIMIT 1] and [fetchone]. *)
Definition select_latest : M (option (Z * sqlval * sqlval * sqlval * sqlval)) :=
  let* rows := sensor_readings in
  ret (head ((λ r, (row_timestamp r, row_temperature r, row_humidity r,
                    row_gas_analog r, row_gas_digital r))
             <$> sql_limit 1 (order_by_timestamp_desc rows))).

(** *** Aggregates *)

(** The value of a cell as [AVG] adds it up; NULL is skipped. *)
Definition numeric_value (v : sqlval) : option (Z + real) :=
  match v with
  | SNull => None
  | SInt z => Some (inl z)
  | SReal x => Some (inr x)
  | SText s => Some (inr (text_as_real s))
  end.

(** [AVG(col)]: NULL when no cell is non-NULL, else the mean as a REAL;
    a mean that is NaN (the sum of [+inf] and [-inf]) comes out as NULL,
    as every NaN result does in SQLite. *)
Definition sql_avg (col : list sqlval) : sqlval :=
  match omap numeric_value col with
  | [] => SNull
  | vs => let a := mean vs in if is_nan a then SNull else SReal a
  end.

(** The order of SQLite values: numbers by value, before any text; texts
    byte-wise. NULL never reaches a comparison in [MIN]/[MAX]. *)
Definition sql_compare (a b : sqlval) : comparison :=
  match a, b with
  | SNull, SNull => Eq
  | SNull, _ => Lt
  | _, SNull => Gt
  | SInt x, SInt y => x ?= y
  | SInt x, SReal y => int_real_compare x y
  | SReal x, SInt y => CompOpp (int_real_compare y x)
  | SReal x, SReal y => real_compare x y
  | SText s, SText t => String.compare s t
  | SText _, _ => Gt
  | _, SText _ => Lt
  end.

Definition comparison_is (c d : comparison) : bool :=
  match c, d with
  | Lt, Lt | Eq, Eq | Gt, Gt => true
  | _, _ => false
  end.

(** One step of [MIN] ([worse := Gt]) or [MAX] ([worse := Lt]): a NULL cell
    is skipped, the first non-NULL cell is taken, and a later cell replaces
    the best so far when the best compares [worse] to it. *)
Definition minmax_step (worse : comparison) (best v : sqlval) : sqlval :=
  match v, best with
  | SNull, _ => best
  | _, SNull => v
  | _, _ => if comparison_is (sql_compare best v) worse then v else best
  end.

Definition sql_min (col : list sqlval) : sqlval := fold_left (minmax_step Gt) col SNull.
Definition sql_max (col : list sqlval) : sqlval := fold_left (minmax_step Lt) col SNull.

(** [timestamp >= datetime('now', '-24 hours')]. *)
Definition in_window (env : Env) (r : Row) : bool :=
  now env - 86400 <=? row_timestamp r.

(** The single row of the statistics query: [COUNT( * )], then [AVG], [MIN],
    [MAX] of temperature and of humidity, then [AVG] and [MAX] of
    gas_analog. *)
Record StatsRow := mkStatsRow {
  total_readings : Z;
  avg_temp : sqlval; min_temp : sqlval; max_temp : sqlval;
  avg_humidity : sqlval; min_humidity : sqlval; max_humidity : sqlval;
  avg_gas : sqlval; max_gas : sqlval;
}.

Definition aggregate (window : list Row) : StatsRow :=
  let temp := row_temperature <$> window in
  let hum := row_humidity <$> window in
  let gas := row_gas_analog <$> window in
  mkStatsRow (Z.of_nat (length window))
    (sql_avg temp) (sql_min temp) (sql_max temp)
    (sql_avg hum) (sql_min hum) (sql_max hum)
    (sql_avg gas) (sql_max gas).

Definition select_stats (env : Env) : M StatsRow :=
  let* rows := sensor_readings in
  ret (aggregate (filter (λ r, in_window env r = true) rows)).

(** ** The handlers *)

(** [jsonify(body), status]. *)
Record Response := mkResponse {
  body : json;
  status : Z;
}.

(** The body of a POST as [request.get_json()] meets it: either it does not
    parse (the call raises [BadRequest]) or it is some JSON value. *)
Inductive Body :=
  | NotJson (why : string)
  | Json (data : json).

Definition get_json (b : Body) : exn + json :=
  match b with
  | NotJson why => inl (Raise BadRequest why)
  | Json data => inr data
  end.

Definition type_name (j : json) : string :=
  match j with
  | JNull => "NoneType"
  | JBool _ => "bool"
  | JInt _ => "int"
  | JFloat _ => "float"
  | JStr _ => "str"
  | JArr _ => "list"
  | JObj _ => "dict"
  end.

(** [data.get(key, dflt)]: the default stands in for an absent key only, and
    only a dict has [get]. *)
Definition dict_get (data : json) (key : string) (dflt : json) : exn + json :=
  match data with
  | JObj m => inr (default dflt (m !! key))
  | _ => inl (Raise AttributeError
                ("'" +:+ type_name data +:+ "' object has no attribute 'get'"))
  end.

(** [request.args.get(key, dflt, type=int)]: the default stands in for an
    absent key and for a value [int] refuses. *)
Definition args_get_int (args : gmap string string) (key : string) (dflt : Z) : Z :=
  match args !! key with
  | None => dflt
  | Some s => default dflt (py_int s)
  end.

(** [try: ... except Exception as e: ...]; what raised left the database as
    it was. *)
Definition try_except (m : M Response) (handler : exn → Response) : Db → Response * Db :=
  λ db, match m db with
        | inr (r, db') => (r, db')
        | inl e => (handler e, db)
        end.

(** [init_database()]: no handler around it, a failure reaches the caller. *)
Definition init_database (env : Env) : M unit :=
  let* _ := connect env in
  create_table_if_not_exists.

(** [POST /api/sensor-data]. *)
Definition receive_sensor_data (env : Env) (request : Body) : Db → Response * Db :=
  try_except
    (let* data := lift (get_json request) in
     let* device_id := lift (dict_get data "device_id" (JStr "unknown")) in
     let* temperature := lift (dict_get data "temperature" JNull) in
     let* humidity := lift (dict_get data "humidity" JNull) in
     let* gas_analog := lift (dict_get data "gas_analog" JNull) in
     let* gas_digital := lift (dict_get data "gas_digital" JNull) in
     let* _ := connect env in
     let* _ := insert_reading env device_id temperature humidity gas_analog gas_digital in
     ret (mkResponse
            (JObj {[ "status" := JStr "success";
                     "message" := JStr "Data stored successfully" ]})
            201))
    (λ e, mkResponse
            (JObj {[ "status" := JStr "error"; "message" := JStr (str e) ]})
            400).

(** The record built for each row of [GET /api/sensor-data]. *)
Definition reading_record (r : Row) : json :=
  JObj {[ "id" := JInt (row_id r);
          "timestamp" := JStr (datetime_text (row_timestamp r));
          "device_id" := to_json (row_device_id r);
          "temperature" := to_json (row_temperature r);
          "humidity" := to_json (row_humidity r);
          "gas_analog" := to_json (row_gas_analog r);
          "gas_digital" := to_json (row_gas_digital r) ]}.

(** [GET /api/sensor-data]. *)
Definition get_sensor_data (env : Env) (args : gmap string string) : Db → Response * Db :=
  try_except
    (let limit := args_get_int args "limit" 100 in
     let* _ := connect env in
     let* rows := select_recent limit in
     ret (mkResponse (JArr (reading_record <$> rows)) 200))
    (λ e, mkResponse (JObj {[ "error" := JStr (str e) ]}) 400).

(** [GET /api/latest]. The fetched row is a 5-tuple, which is truthy, so
    [if row] only tells a row from [None]. *)
Definition get_latest (env : Env) : Db → Response * Db :=
  try_except
    (let* _ := connect env in
     let* row := select_latest in
     match row with
     | Some (ts, t, h, ga, gd) =>
         ret (mkResponse
                (JObj {[ "timestamp" := JStr (datetime_text ts);
                         "temperature" := to_json t;
                         "humidity" := to_json h;
                         "gas_analog" := to_json ga;
                         "gas_digital" := to_json gd ]})
                200)
     | None =>
         ret (mkResponse (JObj {[ "message" := JStr "No data available" ]}) 404)
     end)
    (λ e, mkResponse (JObj {[ "error" := JStr (str e) ]}) 400).

(** [round(v, 1) if v else 0]: [None], [0], [0.0] and [''] are falsy;
    [round] leaves an [int] as it is and is not defined on a [str]. *)
Definition round_or_zero (v : sqlval) : exn + json :=
  match v with
  | SNull => inr (JInt 0)
  | SInt z => inr (if z =? 0 then JInt 0 else JInt z)
  | SReal x => inr (if is_zero x then JInt 0 else JFloat (round1 x))
  | SText s =>
      if decide (s = "") then inr (JInt 0)
      else inl (Raise TypeError "type str doesn't define __round__ method")
  end.

(** [GET /api/stats]. *)
Definition get_stats (env : Env) : Db → Response * Db :=
  try_except
    (let* _ := connect env in
     let* row := select_stats env in
     let* t_avg := lift (round_or_zero (avg_temp row)) in
     let* t_min := lift (round_or_zero (min_temp row)) in
     let* t_max := lift (round_or_zero (max_temp row)) in
     let* h_avg := lift (round_or_zero (avg_humidity row)) in
     let* h_min := lift (round_or_zero (min_humidity row)) in
     let* h_max := lift (round_or_zero (max_humidity row)) in
     let* g_avg := lift (round_or_zero (avg_gas row)) in
     let* g_max := lift (round_or_zero (max_gas row)) in
     ret (mkResponse
            (JObj {[ "total_readings" := JInt (total_readings row);
                     "temperature" :=
                       JObj {[ "average" := t_avg; "min" := t_min; "max" := t_max ]};
                     "humidity" :=
                       JObj {[ "average" := h_avg; "min" := h_min; "max" := h_max ]};
                     "gas" := JObj {[ "average" := g_avg; "max" := g_max ]} ]})
            200))
    (λ e, mkResponse (JObj {[ "error" := JStr (str e) ]}) 400).

(** ** Vocabulary of the properties *)

(** A member of a JSON object, by name. *)
Definition field (j : json) (k : string) : option json :=
  match j with
  | JObj m => m !! k
  | _ => None
  end.

(** Newer first, and among rows of one timestamp the larger id first. *)
Definition newest_first (a b : Row) : Prop :=
  row_timestamp b < row_timestamp a
  ∨ (row_timestamp a = row_timestamp b ∧ row_id b < row_id a).

(** Newer first, and among rows of one timestamp the smaller id first. *)
Definition arrival_first (a b : Row) : Prop :=
  row_timestamp b < row_timestamp a
  ∨ (row_timestamp a = row_timestamp b ∧ row_id a < row_id b).

Definition not_older (a b : Row) : Prop := row_timestamp b ≤ row_timestamp a.

(** Rowid order of a table: ids grow along the rows. *)
Definition ids_increasing (rows : list Row) : Prop :=
  StronglySorted (λ a b, row_id a < row_id b) rows.

(** The body of [get_sensor_data] once the limit is known. *)
Definition recent_with_limit (env : Env) (limit : Z) : Db → Response * Db :=
  try_except
    (let* _ := connect env in
     let* rows := select_recent limit in
     ret (mkResponse (JArr (reading_record <$> rows)) 200))
    (λ e, mkResponse (JObj {[ "error" := JStr (str e) ]}) 400).

(** The limit a request asks for, if [int] accepts it, fits 64 bits. *)
Definition limit_fits (args : gmap string string) : Prop :=
  match args !! "limit" with
  | Some s => match py_int s with Some n => int64 n = true | None => True end
  | None => True
  end.

(** What [get_latest] answers for a row. *)
Definition latest_record (r : Row) : json :=
  JObj {[ "timestamp" := JStr (datetime_text (row_timestamp r));
          "temperature" := to_json (row_temperature r);
          "humidity" := to_json (row_humidity r);
          "gas_analog" := to_json (row_gas_analog r);
          "gas_digital" := to_json (row_gas_digital r) ]}.

Definition not_found : Response :=
  mkResponse (JObj {[ "message" := JStr "No data available" ]}) 404.

(** The two answers of [receive_sensor_data]. *)
Definition created : Response :=
  mkResponse
    (JObj {[ "status" := JStr "success";
             "message" := JStr "Data stored successfully" ]})
    201.

Definition rejected (message : string) : Response :=
  mkResponse (JObj {[ "status" := JStr "error"; "message" := JStr message ]}) 400.

(** The answer of the three GET handlers to an exception. *)
Definition failed (message : string) : Response :=
  mkResponse (JObj {[ "error" := JStr message ]}) 400.

(** The five values [receive_sensor_data] extracts from a payload. *)
Definition payload_device_id (m : gmap string json) : json :=
  default (JStr "unknown") (m !! "device_id").
Definition payload_value (m : gmap string json) (key : string) : json :=
  default JNull (m !! key).

(** A JSON value the [sqlite3] module refuses to bind: a list, a dict, an
    integer beyond 64 bits, or a string that holds a lone surrogate. *)
Definition unbindable (j : json) : Prop :=
  match j with
  | JArr _ | JObj _ => True
  | JInt z => int64 z = false
  | JStr s => encodable s = false
  | _ => False
  end.

(** The SQLite value a bindable JSON value is bound as. *)
Definition bound (j : json) : sqlval :=
  match j with
  | JBool b => SInt (if b then 1 else 0)
  | JInt z => SInt z
  | JFloat x => if is_nan x then SNull else SReal x
  | JStr s => SText s
  | JNull | JArr _ | JObj _ => SNull
  end.

(** A JSON number for a REAL column: a 64-bit integer, or a float other
    than NaN. *)
Definition number (j : json) : Prop :=
  match j with
  | JInt z => int64 z = true
  | JFloat x => is_nan x = false
  | _ => False
  end.

(** The float a REAL column returns for such a number: the float that was
    sent (negative zero as [0.0]), and for an integer the float of that
    integer. *)
Definition as_real (j : json) : json :=
  match j with
  | JInt z => JFloat (of_int z)
  | JFloat x => JFloat (real_readback x)
  | _ => j
  end.

(** A cell and the JSON value that shows it: NULL as [null], a number as
    that number, a text as that string. *)
Definition shown_as (v : sqlval) (j : json) : Prop :=
  match v with
  | SNull => j = JNull
  | SInt z => j = JInt z
  | SReal x => j = JFloat x
  | SText s => j = JStr s
  end.

(** The row an accepted payload becomes, given the five bound values. *)
Definition reading (i : Z) (env : Env) (d t h ga gd : sqlval) : Row :=
  mkRow i (now env)
    (apply_affinity AffText d)
    (apply_affinity AffReal t) (apply_affinity AffReal h)
    (apply_affinity AffInteger ga) (apply_affinity AffInteger gd).

(** The non-NULL cells of a column. *)
Definition is_null (v : sqlval) : bool :=
  match v with SNull => true | _ => false end.

Definition non_null (col : list sqlval) : list sqlval :=
  filter (λ v, is_null v = false) col.

(** A cell that holds a number or NULL, as the measurement columns are
    declared. *)
Definition numeric (v : sqlval) : Prop :=
  match v with SText _ => False | _ => True end.

Definition measurements_numeric (r : Row) : Prop :=
  numeric (row_temperature r) ∧ numeric (row_humidity r)
  ∧ numeric (row_gas_analog r).

(** A statistic as the specification words it: the aggregate of the non-NULL
    values of the column shown with one decimal, and zero when there is no
    such value. *)
Definition rounded (v : sqlval) : json :=
  match round_or_zero v with inr j => j | inl _ => JNull end.

Definition displayed (agg : list sqlval → sqlval) (values : list sqlval) : json :=
  match values with
  | [] => JInt 0
  | _ => rounded (agg values)
  end.

(** The invariant AUTOINCREMENT maintains. *)
Definition wf_db (db : Db) : Prop :=
  match db_table db with
  | Some rows => ids_increasing rows ∧ Forall (λ r, row_id r ≤ db_seq db) rows
  | None => True
  end.

End Service.

Arguments json : clear implicits.
Arguments sqlval : clear implicits.
Arguments Row : clear implicits.
Arguments Db : clear implicits.
Arguments StatsRow : clear implicits.
Arguments Response : clear implicits.
Arguments Body : clear implicits.
Arguments M : clear implicits.

(** ** The health check, the dashboard and request sequences

    [health_check] of [backend/server.py], and the two places where
    [dashboard/streamlit_app.py] works on the same database file:
    [get_latest_reading] and the "Clear All Data" block of [main], with
    the rules by which Streamlit runs the script and answers its widgets. *)

Notation "'let*' x := m 'in' k" := (bind_M m (λ x, k))
  (at level 10, x pattern, m at level 100, k at level 200).

Section Dashboard.
Context {real : Type} {platform : Platform real}.

(** [GET /health]: no storage access; [isoformat] is what
    [datetime.now().isoformat()] returns. *)
Definition health_check (isoformat : string) : Db real → Response real * Db real :=
  λ db, (mkResponse
           (JObj {[ "status" := JStr "healthy";
                    "service" := JStr "ESP8266 IoT Backend";
                    "timestamp" := JStr isoformat ]})
           200, db).

(** [get_latest_reading()] of the dashboard: the statement of [get_latest];
    a dict for the row, [None] for no row, and [None] again for whatever
    raises (bare [except]). *)
Definition get_latest_reading (env : Env) (db : Db real) : option (gmap string (json real)) :=
  match (let* _ := connect env in select_latest) db with
  | inr (Some (ts, t, h, ga, gd), _) =>
      Some {[ "timestamp" := JStr (datetime_text ts);
              "temperature" := to_json t;
              "humidity" := to_json h;
              "gas_analog" := to_json ga;
              "gas_digital" := to_json gd ]}
  | inr (None, _) => None
  | inl _ => None
  end.










(** The table after the server handled a sequence of POST requests, each
    under its own clock and storage condition. *)
Fixpoint serve_posts (requests : list (Env * Body real)) (db : Db real) : Db real :=
  match requests with
  | [] => db
  | (env, request) :: rest => serve_posts rest (receive_sensor_data env request db).2
  end.

(** A JSON value that is a number, a boolean or null. *)
Definition numeric_json (j : json real) : Prop :=
  match j with
  | JNull | JBool _ | JInt _ | JFloat _ => True
  | _ => False
  end.

(** A POST whose three aggregated measurements are numbers, booleans, null
    or absent; bodies that are no mapping store nothing. *)
Definition numeric_request (request : Body real) : Prop :=
  match request with
  | Json (JObj m) =>
      numeric_json (payload_value m "temperature")
      ∧ numeric_json (payload_value m "humidity")
      ∧ numeric_json (payload_value m "gas_analog")
  | _ => True
  end.

(** A cell that holds a text other than the empty one. *)
Definition nonempty_text (v : sqlval real) : Prop :=
  match v with
  | SText s => s ≠ ""
  | _ => False
  end.

(** A cell that holds an integer or NULL. *)
Definition integer_or_null (v : sqlval real) : Prop :=
  match v with
  | SNull | SInt _ => True
  | _ => False
  end.

(** A statement that leaves the database as it found it. *)
Definition read_only {A} (m : M real A) : Prop :=
  ∀ db a db', m db = inr (a, db') → db' = db.

End Dashboard.

(** ** A platform to run the model on

    Doubles idealised as rationals, the decimal fragment of [int()] and of
    SQLite's numeric literals, and the calendar of [CURRENT_TIMESTAMP]. It
    serves to evaluate the handlers on concrete requests. *)

Module Exact.

Definition digit_of (c : ascii) : option Z :=
  let n := Z.of_N (N_of_ascii c) in
  if (48 <=? n) && (n <=? 57) then Some (n - 48) else None.

Fixpoint digits_value (acc : Z) (cs : list ascii) : option Z :=
  match cs with
  | [] => Some acc
  | c :: cs' =>
      match digit_of c with
      | Some d => digits_value (10 * acc + d) cs'
      | None => None
      end
  end.

(** An optional sign and at least one decimal digit. *)
Definition parse_decimal (s : string) : option Z :=
  match list_ascii_of_string s with
  | [] => None
  | c :: cs =>
      if decide (c = "-"%char) then
        match cs with [] => None | _ => Z.opp <$> digits_value 0 cs end
      else if decide (c = "+"%char) then
        match cs with [] => None | _ => digits_value 0 cs end
      else digits_value 0 (c :: cs)
  end.

Definition two_digits (n : Z) : string :=
  if n <? 10 then "0" +:+ pretty n else pretty n.

Definition four_digits (n : Z) : string :=
  (if n <? 1000 then "0" else "") +:+ (if n <? 100 then "0" else "")
  +:+ two_digits n.

(** Year, month and day of a count of days since 1970-01-01. *)
Definition civil_from_days (days : Z) : Z * Z * Z :=
  let z := days + 719468 in
  let era := z / 146097 in
  let doe := z - era * 146097 in
  let yoe := (doe - doe / 1460 + doe / 36524 - doe / 146096) / 365 in
  let doy := doe - (365 * yoe + yoe / 4 - yoe / 100) in
  let mp := (5 * doy + 2) / 153 in
  let d := doy - (153 * mp + 2) / 5 + 1 in
  let m := if mp <? 10 then mp + 3 else mp - 9 in
  let y := yoe + era * 400 in
  (if m <=? 2 then y + 1 else y, m, d).

Definition utc_datetime (t : Z) : string :=
  let '(y, m, d) := civil_from_days (t / 86400) in
  let s := t mod 86400 in
  four_digits y +:+ "-" +:+ two_digits m +:+ "-" +:+ two_digits d +:+ " "
  +:+ two_digits (s / 3600) +:+ ":" +:+ two_digits (s mod 3600 / 60) +:+ ":"
  +:+ two_digits (s mod 60).

Definition as_Q (v : Z + Q) : Q :=
  match v with inl z => inject_Z z | inr q => q end.

Definition rational_mean (vs : list (Z + Q)) : Q :=
  Qred (foldr (λ v acc, Qplus (as_Q v) acc) (inject_Z 0) vs
        / inject_Z (Z.of_nat (length vs)))%Q.

(** Nearest integer, ties to even. *)
Definition round_half_even (q : Q) : Z :=
  let d := Z.pos (Qden q) in
  let f := Qnum q / d in
  let r2 := 2 * (Qnum q - f * d) in
  if r2 <? d then f
  else if d <? r2 then f + 1
  else if Z.even f then f else f + 1.

Definition round_tenth (q : Q) : Q :=
  Qred (Qmake (round_half_even (q * inject_Z 10)%Q) 10).

Definition integral (q : Q) : option Z :=
  let r := Qred q in
  if decide (Qden r = 1%positive) then
    if int64 (Qnum r) then Some (Qnum r) else None
  else None.

Definition platform : Platform Q := {|
  is_nan := λ _, false;
  is_zero := λ q, Qeq_bool q (inject_Z 0);
  of_int := inject_Z;
  to_int_exact := integral;
  real_compare := Qcompare;
  int_real_compare := λ z q, Qcompare (inject_Z z) q;
  mean := rational_mean;
  round1 := round_tenth;
  parse_num := λ s, inl <$> parse_decimal s;
  text_as_real := λ s, inject_Z (default 0 (parse_decimal s));
  text_of_real := λ q, pretty (Qnum q) +:+ "/" +:+ pretty (Z.pos (Qden q));
  datetime_text := utc_datetime;
  py_int := parse_decimal;
|}.

End Exact.

(** ** Scenarios

    Concrete requests and the tables the handlers build from them, on the
    [Exact] platform. *)

Module Scenario.

#[local] Existing Instance Exact.platform.

(** 2023-11-14 22:13:20 UTC, with working and with failing storage. *)
Definition clock (t : Z) : Env := mkEnv t None None.
Definition broken (t : Z) : Env := mkEnv t (Some "disk I/O error") None.
Definition locked (t : Z) : Env := mkEnv t None (Some "database is locked").
Definition t0 : Z := 1700000000.

Definition esp1 : gmap string (json Q) :=
  {[ "device_id" := JStr "esp1"; "temperature" := JFloat (45 # 2)%Q;
     "humidity" := JFloat (60 # 1)%Q; "gas_analog" := JInt 150;
     "gas_digital" := JInt 0 ]}.

Definition esp2 : gmap string (json Q) :=
  {[ "device_id" := JStr "esp2"; "temperature" := JFloat (30 # 1)%Q;
     "humidity" := JFloat (41 # 1)%Q; "gas_analog" := JInt 300;
     "gas_digital" := JInt 1 ]}.

(** A reading without temperature, and one whose device_id is null. *)
Definition no_temperature : gmap string (json Q) :=
  {[ "device_id" := JStr "esp1"; "humidity" := JFloat (50 # 1)%Q;
     "gas_analog" := JInt 100 ]}.

Definition null_device : gmap string (json Q) :=
  {[ "device_id" := JNull; "temperature" := JFloat (45 # 2)%Q ]}.

(** The payload of the specification's scenario: the humidity is the
    integer 60. *)
Definition whole_humidity : gmap string (json Q) :=
  {[ "device_id" := JStr "esp1"; "temperature" := JFloat (45 # 2)%Q;
     "humidity" := JInt 60; "gas_analog" := JInt 150; "gas_digital" := JInt 0 ]}.

(** The reading of [esp1] as another device sends it. *)
Definition esp1_from_esp2 : gmap string (json Q) :=
  <[ "device_id" := JStr "esp2" ]> esp1.

(** The lone surrogate U+D800 and the last code point before the
    surrogates, U+D7FF, and a payload sent under the former. *)
Definition lone_surrogate : string :=
  String (ascii_of_N 237) (String (ascii_of_N 160) (String (ascii_of_N 128) EmptyString)).
Definition before_surrogates : string :=
  String (ascii_of_N 237) (String (ascii_of_N 159) (String (ascii_of_N 191) EmptyString)).
Definition surrogate_device : gmap string (json Q) :=
  <[ "device_id" := JStr lone_surrogate ]> esp1.

(** A null device_id beside a temperature that is a list. *)
Definition null_device_list : gmap string (json Q) :=
  {[ "device_id" := JNull; "temperature" := JArr [JInt 1; JInt 2] ]}.

Definition row1 : Row Q :=
  mkRow 1 t0 (SText "esp1") (SReal (45 # 2)%Q) (SReal (60 # 1)%Q) (SInt 150) (SInt 0).
Definition row2 : Row Q :=
  mkRow 2 t0 (SText "esp2") (SReal (30 # 1)%Q) (SReal (41 # 1)%Q) (SInt 300) (SInt 1).

(** The table after start-up, after one reading, and after a second reading
    that arrived within the same second. *)
Definition started : Db Q := mkDb (Some []) 0.
Definition one_reading : Db Q := snd (receive_sensor_data (clock t0) (Json (JObj esp1)) started).
Definition same_second : Db Q := snd (receive_sensor_data (clock t0) (Json (JObj esp2)) one_reading).

(** A table whose only reading has no temperature. *)
Definition only_nulls : Db Q :=
  snd (receive_sensor_data (clock t0) (Json (JObj no_temperature)) started).

(** The table of one reading, sent by the other device. *)
Definition row1_from_esp2 : Row Q :=
  mkRow 1 t0 (SText "esp2") (SReal (45 # 2)%Q) (SReal (60 # 1)%Q) (SInt 150) (SInt 0).
Definition one_reading_from_esp2 : Db Q :=
  snd (receive_sensor_data (clock t0) (Json (JObj esp1_from_esp2)) started).

(** A payload whose humidity is a text, and the table it leaves. *)
Definition text_humidity : gmap string (json Q) :=
  {[ "device_id" := JStr "esp1"; "humidity" := JStr "abc" ]}.
Definition text_row : Row Q :=
  mkRow 1 t0 (SText "esp1") SNull (SText "abc") SNull SNull.
Definition text_table : Db Q :=
  snd (receive_sensor_data (clock t0) (Json (JObj text_humidity)) started).

Definition limit_of (s : string) : gmap string string := {[ "limit" := s ]}.

End Scenario.

(** Further requests and tables. *)

Module MoreScenarios.

Import Scenario.
#[local] Existing Instance Exact.platform.

(** A second reading one minute after the first. *)
Definition a_minute_later : Db Q :=
  snd (receive_sensor_data (clock (t0 + 60)) (Json (JObj esp2)) one_reading).
Definition row2_later : Row Q :=
  mkRow 2 (t0 + 60) (SText "esp2") (SReal (30 # 1)%Q) (SReal (41 # 1)%Q) (SInt 300) (SInt 1).

(** Payloads whose values are not of the declared types. *)
Definition coerced : gmap string (json Q) :=
  {[ "temperature" := JInt 22; "gas_analog" := JNull; "gas_digital" := JBool true ]}.
Definition list_temperature : gmap string (json Q) :=
  {[ "device_id" := JStr "esp1"; "temperature" := JArr [JInt 1; JInt 2] ]}.


(** Three requests: one accepted, one under failing storage, one that does
    not parse. *)
Definition three_posts : list (Env * Body Q) :=
  [(clock t0, Json (JObj esp1)); (broken (t0 + 1), Json (JObj esp2));
   (clock (t0 + 2), NotJson "Failed to decode JSON object")].

End MoreScenarios.

(** ** Ordering of the recent rows *)

Section Ordering.
Context {real : Type} {platform : Platform real}.

Lemma elem_of_insert_by_timestamp (r x : Row real) l :
  x ∈ insert_by_timestamp r l ↔ x = r ∨ x ∈ l.
Proof.
  induction l as [|y l IH]; simpl.
  - rewrite list_elem_of_singleton, elem_of_nil. tauto.
  - destruct (row_timestamp y <? row_timestamp r).
    + by rewrite elem_of_cons.
    + rewrite !elem_of_cons, IH. tauto.
Qed.

Lemma length_insert_by_timestamp (r : Row real) l :
  length (insert_by_timestamp r l) = S (length l).
Proof.
  induction l as [|y l IH]; simpl; [done|].
  destruct (row_timestamp y <? row_timestamp r); simpl; congruence.
Qed.

Lemma fold_insert_elem_of (rows : list (Row real)) : ∀ acc x,
  x ∈ fold_left (λ sorted r, insert_by_timestamp r sorted) rows acc
  ↔ x ∈ rows ∨ x ∈ acc.
Proof.
  induction rows as [|r rows IH]; intros acc x; simpl.
  - rewrite elem_of_nil. tauto.
  - rewrite IH, elem_of_insert_by_timestamp, elem_of_cons. tauto.
Qed.

Lemma fold_insert_length (rows : list (Row real)) : ∀ acc,
  length (fold_left (λ sorted r, insert_by_timestamp r sorted) rows acc)
  = (length rows + length acc)%nat.
Proof.
  induction rows as [|r rows IH]; intros acc; simpl; [done|].
  rewrite IH, length_insert_by_timestamp. lia.
Qed.

Lemma elem_of_order_by_timestamp_desc (rows : list (Row real)) x :
  x ∈ order_by_timestamp_desc rows ↔ x ∈ rows.
Proof.
  unfold order_by_timestamp_desc. rewrite fold_insert_elem_of, elem_of_nil. tauto.
Qed.

Lemma length_order_by_timestamp_desc (rows : list (Row real)) :
  length (order_by_timestamp_desc rows) = length rows.
Proof.
  unfold order_by_timestamp_desc. rewrite fold_insert_length. simpl. lia.
Qed.

(** Filing a row keeps the index sorted by timestamp. *)
Lemma insert_not_older (r : Row real) l :
  StronglySorted not_older l → StronglySorted not_older (insert_by_timestamp r l).
Proof.
  unfold not_older. induction l as [|y l IH]; simpl; intros Hs.
  - repeat constructor.
  - apply StronglySorted_cons in Hs as [Hy Hl].
    destruct (Z.ltb_spec (row_timestamp y) (row_timestamp r)).
    + apply StronglySorted_cons. split.
      * constructor; [lia|]. eapply Forall_impl; [exact Hy|]. simpl. lia.
      * by apply StronglySorted_cons.
    + apply StronglySorted_cons. split; [|by apply IH].
      apply Forall_forall. intros z Hz.
      apply elem_of_insert_by_timestamp in Hz as [->|Hz]; [lia|].
      rewrite Forall_forall in Hy. by apply Hy.
Qed.

(** Filing a row whose id is beyond every id on file keeps arrival order
    among equal timestamps. *)
Lemma insert_arrival_first (r : Row real) l :
  StronglySorted arrival_first l →
  Forall (λ x, row_id x < row_id r) l →
  StronglySorted arrival_first (insert_by_timestamp r l).
Proof.
  unfold arrival_first. induction l as [|y l IH]; simpl; intros Hs Hid.
  - repeat constructor.
  - apply StronglySorted_cons in Hs as [Hy Hl].
    apply Forall_cons in Hid as [Hyr Hid].
    destruct (Z.ltb_spec (row_timestamp y) (row_timestamp r)).
    + apply StronglySorted_cons. split.
      * constructor; [lia|]. eapply Forall_impl; [exact Hy|]. simpl. lia.
      * by apply StronglySorted_cons.
    + apply StronglySorted_cons. split; [|by apply IH].
      apply Forall_forall. intros z Hz.
      apply elem_of_insert_by_timestamp in Hz as [->|Hz]; [lia|].
      rewrite Forall_forall in Hy. by apply Hy.
Qed.

Lemma order_by_not_older (rows : list (Row real)) :
  StronglySorted not_older (order_by_timestamp_desc rows).
Proof.
  unfold order_by_timestamp_desc.
  assert (∀ acc, StronglySorted not_older acc →
    StronglySorted not_older
      (fold_left (λ sorted r, insert_by_timestamp r sorted) rows acc)) as Hgen.
  { induction rows as [|r rows IH]; intros acc Hacc; simpl; [done|].
    apply IH. by apply insert_not_older. }
  apply Hgen. constructor.
Qed.

Lemma order_by_arrival_first (rows : list (Row real)) :
  ids_increasing rows →
  StronglySorted arrival_first (order_by_timestamp_desc rows).
Proof.
  unfold order_by_timestamp_desc, ids_increasing.
  assert (∀ acc, StronglySorted (λ a b, row_id a < row_id b) rows →
    StronglySorted arrival_first acc →
    Forall (λ a, Forall (λ r, row_id a < row_id r) rows) acc →
    StronglySorted arrival_first
      (fold_left (λ sorted r, insert_by_timestamp r sorted) rows acc)) as Hgen.
  { induction rows as [|r rows IH]; intros acc Hrows Hacc Hlt; simpl; [done|].
    apply StronglySorted_cons in Hrows as [Hr Hrows].
    apply IH; [done| |].
    - apply insert_arrival_first; [done|].
      eapply Forall_impl; [exact Hlt|]. intros a Ha. by apply Forall_cons in Ha as [? _].
    - apply Forall_forall. intros a Ha.
      apply elem_of_insert_by_timestamp in Ha as [->|Ha]; [done|].
      eapply Forall_forall in Hlt; [|exact Ha]. by apply Forall_cons in Hlt as [_ ?]. }
  intros Hrows. apply Hgen; [done|constructor|constructor].
Qed.

Lemma StronglySorted_take {A} (R : relation A) n (l : list A) :
  StronglySorted R l → StronglySorted R (take n l).
Proof.
  intros Hl. rewrite <- (take_drop n l) in Hl.
  by apply StronglySorted_app_1_l in Hl.
Qed.

Lemma StronglySorted_sql_limit {A} (R : relation A) n (l : list A) :
  StronglySorted R l → StronglySorted R (sql_limit n l).
Proof.
  unfold sql_limit. destruct (n <? 0); [done|]. apply StronglySorted_take.
Qed.

Lemma length_sql_limit {A} n (l : list A) :
  0 ≤ n → length (sql_limit n l) = (length l `min` Z.to_nat n)%nat.
Proof.
  intros Hn. unfold sql_limit.
  destruct (Z.ltb_spec n 0); [lia|]. rewrite length_take. lia.
Qed.

(** A row newer than everything stored comes out first. *)
Lemma order_by_newest (rows : list (Row real)) r :
  Forall (λ x, row_timestamp x < row_timestamp r) rows →
  order_by_timestamp_desc (rows ++ [r]) = r :: order_by_timestamp_desc rows.
Proof.
  intros Hold. unfold order_by_timestamp_desc.
  rewrite fold_left_app. simpl.
  fold (order_by_timestamp_desc rows).
  assert (Forall (λ x, row_timestamp x < row_timestamp r)
            (order_by_timestamp_desc rows)) as Hs.
  { apply Forall_forall. intros x Hx.
    rewrite elem_of_order_by_timestamp_desc in Hx.
    rewrite Forall_forall in Hold. by apply Hold. }
  destruct (order_by_timestamp_desc rows) as [|y l]; simpl; [done|].
  apply Forall_cons in Hs as [Hy _].
  destruct (Z.ltb_spec (row_timestamp y) (row_timestamp r)); [done|lia].
Qed.

End Ordering.

(** Unfolds the monad so that a handler run shows its case analysis. *)
Ltac run_statements :=
  unfold try_except, connect, sensor_readings;
  repeat (unfold bind_M, lift, ret, raise; cbv beta iota).

(** ** Reading back *)

Section Queries.
Context {real : Type} {platform : Platform real}.

Lemma get_sensor_data_with_limit env args db :
  get_sensor_data env args db
  = recent_with_limit env (args_get_int args "limit" 100) db.
Proof. reflexivity. Qed.

Lemma recent_with_limit_rows env limit db rows :
  io_fault env = None → db_table db = Some rows → int64 limit = true →
  recent_with_limit env limit db
  = (mkResponse
       (JArr (reading_record <$> sql_limit limit (order_by_timestamp_desc rows))) 200,
     db).
Proof.
  intros Hio Htab Hlim. unfold recent_with_limit, select_recent. run_statements.
  rewrite Hio, Htab. cbv beta iota. unfold bind. rewrite Hlim. reflexivity.
Qed.

(** A limit beyond 64 bits cannot be bound, whatever the table holds. *)
Lemma recent_with_limit_overflow env limit db rows :
  io_fault env = None → db_table db = Some rows → int64 limit = false →
  recent_with_limit env limit db
  = (failed "Python int too large to convert to SQLite INTEGER", db).
Proof.
  intros Hio Htab Hlim. unfold recent_with_limit, select_recent. run_statements.
  rewrite Hio, Htab. cbv beta iota. unfold bind. rewrite Hlim. reflexivity.
Qed.

Lemma get_latest_rows env db rows :
  io_fault env = None → db_table db = Some rows →
  get_latest env db
  = (match head (order_by_timestamp_desc rows) with
     | Some r => mkResponse (latest_record r) 200
     | None => not_found
     end, db).
Proof.
  intros Hio Htab. unfold get_latest, select_latest. run_statements.
  rewrite Hio, Htab. cbv beta iota.
  unfold sql_limit. simpl (1 <? 0). cbv beta iota.
  destruct (order_by_timestamp_desc rows) as [|r l]; reflexivity.
Qed.

End Queries.

(** ** Ingestion *)

Section Ingestion.
Context {real : Type} {platform : Platform real}.

(** Binding succeeds on every value but the unbindable ones, at every
    placeholder. *)
Lemma bind_bound n (j : json real) : ¬ unbindable j → bind n j = inr (bound j).
Proof.
  destruct j as [|b|z|x|s|l|m]; simpl; intros Hj; try done.
  - destruct (int64 z); [done|by destruct Hj].
  - destruct (encodable s); [done|by destruct Hj].
Qed.

Lemma unbindable_bind n (j : json real) : unbindable j → ∃ e, bind n j = inl e.
Proof.
  destruct j as [|b|z|x|s|l|m]; simpl; try done; intros Hj; try rewrite Hj; eauto.
Qed.

Lemma bind_inr n (j : json real) v : bind n j = inr v → ¬ unbindable j ∧ v = bound j.
Proof.
  intros Hb. assert (¬ unbindable j) as Hj.
  { intros Hu. apply (unbindable_bind n) in Hu as [e He]. congruence. }
  split; [done|]. rewrite (bind_bound n j Hj) in Hb. congruence.
Qed.

(** An accepted payload appends one row and answers 201. *)
Lemma receive_sensor_data_stored env m db rows :
  io_fault env = None → write_fault env = None → db_table db = Some rows →
  ¬ unbindable (payload_device_id m) →
  ¬ unbindable (payload_value m "temperature") →
  ¬ unbindable (payload_value m "humidity") →
  ¬ unbindable (payload_value m "gas_analog") →
  ¬ unbindable (payload_value m "gas_digital") →
  receive_sensor_data env (Json (JObj m)) db
  = (created,
     mkDb (Some (rows ++ [reading (next_rowid rows (db_seq db)) env
                            (bound (payload_device_id m))
                            (bound (payload_value m "temperature"))
                            (bound (payload_value m "humidity"))
                            (bound (payload_value m "gas_analog"))
                            (bound (payload_value m "gas_digital"))]))
          (next_rowid rows (db_seq db))).
Proof.
  unfold payload_device_id, payload_value.
  intros Hio Hw Htab Hd Ht Hh Hga Hgd.
  unfold receive_sensor_data, insert_reading, get_json, dict_get, run_write.
  run_statements.
  rewrite Hio, Hw, Htab. cbv beta iota.
  rewrite (bind_bound 1 _ Hd), (bind_bound 2 _ Ht), (bind_bound 3 _ Hh),
    (bind_bound 4 _ Hga), (bind_bound 5 _ Hgd).
  reflexivity.
Qed.

(** Conversely, a 201 answer means exactly that. *)
Lemma receive_sensor_data_created env request db resp db' :
  receive_sensor_data env request db = (resp, db') → status resp = 201 →
  ∃ m rows d t h ga gd,
    request = Json (JObj m) ∧ io_fault env = None ∧ db_table db = Some rows
    ∧ bind 1 (payload_device_id m) = inr d
    ∧ bind 2 (payload_value m "temperature") = inr t
    ∧ bind 3 (payload_value m "humidity") = inr h
    ∧ bind 4 (payload_value m "gas_analog") = inr ga
    ∧ bind 5 (payload_value m "gas_digital") = inr gd
    ∧ db' = mkDb (Some (rows ++ [reading (next_rowid rows (db_seq db)) env d t h ga gd]))
                 (next_rowid rows (db_seq db)).
Proof.
  unfold payload_device_id, payload_value.
  unfold receive_sensor_data, insert_reading, get_json, dict_get, run_write.
  run_statements.
  intros Hrun Hst.
  destruct request as [why|data];
    [inversion Hrun; subst; discriminate Hst|].
  destruct data as [| | | | | |m];
    try (inversion Hrun; subst; discriminate Hst).
  destruct (io_fault env) as [msg|] eqn:Hio;
    [inversion Hrun; subst; discriminate Hst|].
  destruct (db_table db) as [rows|] eqn:Htab;
    [|inversion Hrun; subst; discriminate Hst].
  cbv beta iota in Hrun.
  destruct (bind 1 (default (JStr "unknown") (m !! "device_id"))) as [e|d] eqn:Hd;
    [inversion Hrun; subst; discriminate Hst|].
  destruct (bind 2 (default JNull (m !! "temperature"))) as [e|t] eqn:Ht;
    [inversion Hrun; subst; discriminate Hst|].
  destruct (bind 3 (default JNull (m !! "humidity"))) as [e|h] eqn:Hh;
    [inversion Hrun; subst; discriminate Hst|].
  destruct (bind 4 (default JNull (m !! "gas_analog"))) as [e|ga] eqn:Hga;
    [inversion Hrun; subst; discriminate Hst|].
  destruct (bind 5 (default JNull (m !! "gas_digital"))) as [e|gd] eqn:Hgd;
    [inversion Hrun; subst; discriminate Hst|].
  destruct (write_fault env) as [msg|] eqn:Hw;
    [inversion Hrun; subst; discriminate Hst|].
  inversion Hrun; subst.
  exists m, rows, d, t, h, ga, gd. by repeat split.
Qed.

(** A 201 answer also means that the write went through. *)
Lemma receive_sensor_data_written env request db db' :
  receive_sensor_data env request db = (created, db') → write_fault env = None.
Proof.
  intros Hrun.
  destruct (receive_sensor_data_created env request db created db' Hrun eq_refl)
    as (m & rows & d & t & h & ga & gd & -> & Hio & Htab & Hd & Ht & Hh & Hga & Hgd & _).
  revert Hrun. unfold payload_device_id, payload_value in *.
  unfold receive_sensor_data, insert_reading, get_json, dict_get, run_write.
  run_statements.
  rewrite Hio, Htab. cbv beta iota. rewrite Hd, Ht, Hh, Hga, Hgd.
  by destruct (write_fault env).
Qed.

(** Whatever raises, the answer is 400 with the text of the exception and
    the table is as before. *)
Lemma receive_sensor_data_status env request db :
  let '(resp, db') := receive_sensor_data env request db in
  resp = created ∨ (∃ message, resp = rejected message ∧ db' = db).
Proof.
  unfold receive_sensor_data, try_except.
  match goal with |- context [match ?run db with _ => _ end] => destruct (run db) as [e|[r db']] eqn:Hrun end.
  - right. by exists (str e).
  - left. revert Hrun. unfold insert_reading, get_json, dict_get, run_write.
    run_statements.
    repeat match goal with
           | |- context [match ?x with _ => _ end] => destruct x; try discriminate
           end.
    intros [= <- _]. reflexivity.
Qed.

(** Ingestion keeps the ids growing along the table and below the counter. *)
Lemma receive_sensor_data_wf env request (db : Db real) :
  wf_db db → wf_db (receive_sensor_data env request db).2.
Proof.
  intros Hwf.
  destruct (receive_sensor_data env request db) as [resp db'] eqn:Hrun.
  pose proof (receive_sensor_data_status env request db) as Hst.
  rewrite Hrun in Hst. simpl.
  destruct Hst as [-> | (message & _ & ->)]; [|done].
  apply receive_sensor_data_created in Hrun as
    (m & rows & d & t & h & ga & gd & _ & _ & Htab & _ & _ & _ & _ & _ & ->);
    [|done].
  unfold wf_db in *. rewrite Htab in Hwf. destruct Hwf as [Hids Hseq]. simpl.
  assert (∀ x, x ∈ rows → row_id x < next_rowid rows (db_seq db)) as Hfresh.
  { intros x Hx. rewrite Forall_forall in Hseq. specialize (Hseq x Hx).
    unfold next_rowid. lia. }
  split.
  - apply StronglySorted_app. split; [|split; [done|repeat constructor]].
    intros x1 x2 Hx1 Hx2. apply list_elem_of_singleton in Hx2 as ->.
    by apply Hfresh.
  - apply Forall_app. split.
    + apply Forall_forall. intros x Hx. specialize (Hfresh x Hx). lia.
    + repeat constructor. simpl. lia.
Qed.

Lemma init_database_wf env (db db' : Db real) :
  init_database env db = inr (tt, db') → wf_db db → wf_db db'.
Proof.
  unfold init_database, create_table_if_not_exists. run_statements.
  destruct (io_fault env); [discriminate|].
  destruct db as [[rows|] seq]; simpl; intros [= <-]; [done|].
  intros _. unfold wf_db. simpl. split; constructor.
Qed.

End Ingestion.

(** ** Aggregation *)

Section Aggregation.
Context {real : Type} {platform : Platform real}.

Lemma non_null_cons (v : sqlval real) col :
  non_null (v :: col) = if is_null v then non_null col else v :: non_null col.
Proof.
  unfold non_null. rewrite filter_cons.
  destruct (is_null v); by case_decide.
Qed.

Lemma omap_numeric_value_non_null (col : list (sqlval real)) :
  omap numeric_value (non_null col) = omap numeric_value col.
Proof.
  induction col as [|v col IH]; [done|].
  rewrite non_null_cons. destruct v; simpl; first [exact IH | f_equal; exact IH].
Qed.

(** NULL cells do not take part in [AVG]. *)
Lemma sql_avg_non_null (col : list (sqlval real)) : sql_avg (non_null col) = sql_avg col.
Proof. unfold sql_avg. by rewrite omap_numeric_value_non_null. Qed.

(** NULL cells do not take part in [MIN] and [MAX]. *)
Lemma minmax_non_null worse (col : list (sqlval real)) : ∀ best,
  fold_left (minmax_step worse) (non_null col) best
  = fold_left (minmax_step worse) col best.
Proof.
  induction col as [|v col IH]; intros best; [done|].
  rewrite non_null_cons. destruct v; simpl; apply IH.
Qed.

Lemma sql_min_non_null (col : list (sqlval real)) : sql_min (non_null col) = sql_min col.
Proof. apply minmax_non_null. Qed.

Lemma sql_max_non_null (col : list (sqlval real)) : sql_max (non_null col) = sql_max col.
Proof. apply minmax_non_null. Qed.

Lemma numeric_sql_avg (col : list (sqlval real)) : numeric (sql_avg col).
Proof.
  unfold sql_avg. destruct (omap numeric_value col); [done|].
  cbv zeta. by destruct (is_nan _).
Qed.

Lemma numeric_minmax worse (col : list (sqlval real)) : ∀ best,
  Forall numeric col → numeric best →
  numeric (fold_left (minmax_step worse) col best).
Proof.
  induction col as [|v col IH]; intros best Hcol Hbest; [done|].
  apply Forall_cons in Hcol as [Hv Hcol]. simpl. apply IH; [done|].
  unfold minmax_step. destruct v, best; try done;
    by destruct (comparison_is _ _).
Qed.

Lemma round_or_zero_numeric (v : sqlval real) : numeric v → round_or_zero v = inr (rounded v).
Proof. unfold rounded. by destruct v. Qed.

(** With no non-NULL value the statistic is shown as zero; otherwise it is
    the aggregate of the non-NULL values. *)
Lemma displayed_non_null agg (col : list (sqlval real)) :
  agg (non_null col) = agg col → agg [] = SNull →
  displayed agg (non_null col) = rounded (agg col).
Proof.
  intros Hagg Hnil. unfold displayed.
  destruct (non_null col) as [|v vs] eqn:Hnn.
  - by rewrite <- Hagg, Hnil.
  - by rewrite Hagg.
Qed.

(** The rows the statistics see are those of the trailing 86400 seconds. *)
Lemma window_last_24_hours env (rows : list (Row real)) :
  filter (λ r, in_window env r = true) rows
  = filter (λ r, now env - 86400 ≤ row_timestamp r) rows.
Proof.
  induction rows as [|r rows IH]; [done|].
  rewrite !filter_cons, IH. unfold in_window.
  destruct (Z.leb_spec (now env - 86400) (row_timestamp r));
    repeat case_decide; done || lia.
Qed.

Lemma Forall_numeric_column (f : Row real → sqlval real) (window : list (Row real)) :
  Forall (λ r, numeric (f r)) window → Forall numeric (f <$> window).
Proof. intros Hrows. by apply Forall_fmap. Qed.

(** The answer of [get_stats] when the measurement cells of the window are
    numeric. *)
Lemma get_stats_numeric_window env db rows :
  io_fault env = None → db_table db = Some rows →
  Forall measurements_numeric (filter (λ r, in_window env r = true) rows) →
  let row := aggregate (filter (λ r, in_window env r = true) rows) in
  get_stats env db
  = (mkResponse
       (JObj {[ "total_readings" := JInt (total_readings row);
                "temperature" :=
                  JObj {[ "average" := rounded (avg_temp row);
                          "min" := rounded (min_temp row);
                          "max" := rounded (max_temp row) ]};
                "humidity" :=
                  JObj {[ "average" := rounded (avg_humidity row);
                          "min" := rounded (min_humidity row);
                          "max" := rounded (max_humidity row) ]};
                "gas" := JObj {[ "average" := rounded (avg_gas row);
                                 "max" := rounded (max_gas row) ]} ]})
       200, db).
Proof.
  intros Hio Htab Hnum row.
  assert (Forall numeric (row_temperature <$> filter (λ r, in_window env r = true) rows)
          ∧ Forall numeric (row_humidity <$> filter (λ r, in_window env r = true) rows)
          ∧ Forall numeric (row_gas_analog <$> filter (λ r, in_window env r = true) rows))
    as (Ht & Hh & Hg).
  { repeat split; apply Forall_numeric_column;
      (eapply Forall_impl; [exact Hnum|]); by intros r (? & ? & ?). }
  unfold get_stats, select_stats. run_statements.
  rewrite Hio, Htab. cbv beta iota. fold row.
  rewrite (round_or_zero_numeric (avg_temp row)) by apply numeric_sql_avg.
  rewrite (round_or_zero_numeric (min_temp row)) by by apply numeric_minmax.
  rewrite (round_or_zero_numeric (max_temp row)) by by apply numeric_minmax.
  rewrite (round_or_zero_numeric (avg_humidity row)) by apply numeric_sql_avg.
  rewrite (round_or_zero_numeric (min_humidity row)) by by apply numeric_minmax.
  rewrite (round_or_zero_numeric (max_humidity row)) by by apply numeric_minmax.
  rewrite (round_or_zero_numeric (avg_gas row)) by apply numeric_sql_avg.
  rewrite (round_or_zero_numeric (max_gas row)) by by apply numeric_minmax.
  reflexivity.
Qed.

(** The answer of [get_stats] over a table of numeric measurements. *)
Lemma get_stats_numeric env db rows :
  io_fault env = None → db_table db = Some rows →
  Forall measurements_numeric rows →
  let row := aggregate (filter (λ r, in_window env r = true) rows) in
  get_stats env db
  = (mkResponse
       (JObj {[ "total_readings" := JInt (total_readings row);
                "temperature" :=
                  JObj {[ "average" := rounded (avg_temp row);
                          "min" := rounded (min_temp row);
                          "max" := rounded (max_temp row) ]};
                "humidity" :=
                  JObj {[ "average" := rounded (avg_humidity row);
                          "min" := rounded (min_humidity row);
                          "max" := rounded (max_humidity row) ]};
                "gas" := JObj {[ "average" := rounded (avg_gas row);
                                 "max" := rounded (max_gas row) ]} ]})
       200, db).
Proof.
  intros Hio Htab Hnum. apply get_stats_numeric_window; try done.
  apply Forall_forall. intros r Hr. apply list_elem_of_filter in Hr as [_ Hr].
  rewrite Forall_forall in Hnum. by apply Hnum.
Qed.

End Aggregation.

(** ** Properties of the service *)

Section Properties.
Context {real : Type} {platform : Platform real}.

(** C1, as amended. For every table of N ≥ 0 readings and every positive
    limit that SQLite can bind (below 2^63), with storage available,
    [GET /api/sensor-data] answers 200 with exactly min(N, limit) records,
    ordered by timestamp descending. The query names no tiebreak: rows of
    one timestamp come out in table order, that is by ascending id when the
    ids grow along the table, as AUTOINCREMENT makes them. *)
Theorem get_sensor_data_recent env args db rows limit :
  io_fault env = None → db_table db = Some rows →
  args_get_int args "limit" 100 = limit → 0 < limit → int64 limit = true →
  let recent := sql_limit limit (order_by_timestamp_desc rows) in
  get_sensor_data env args db
  = (mkResponse (JArr (reading_record <$> recent)) 200, db)
  ∧ length recent = (length rows `min` Z.to_nat limit)%nat
  ∧ StronglySorted not_older recent
  ∧ (ids_increasing rows → StronglySorted arrival_first recent).
Proof.
  intros Hio Htab Hargs Hpos Hlim recent.
  rewrite get_sensor_data_with_limit, Hargs.
  split; [by apply recent_with_limit_rows|].
  split.
  { unfold recent. rewrite length_sql_limit by lia.
    by rewrite length_order_by_timestamp_desc. }
  split.
  - apply StronglySorted_sql_limit, order_by_not_older.
  - intros Hids. by apply StronglySorted_sql_limit, order_by_arrival_first.
Qed.

(** C2, as amended. With storage available, let the window be the rows
    whose timestamp is at most 86400 seconds before the time of the request.
    When the temperature, humidity and gas_analog cells of the window hold
    numbers or NULL, [GET /api/stats] answers 200; [total_readings] is the
    number of rows of the window; each average, minimum and maximum is
    computed from the non-NULL cells of its own column only, and is reported
    as 0 when that column has no non-NULL cell in the window, which includes
    the empty table. *)
Theorem get_stats_excludes_nulls env db rows :
  io_fault env = None → db_table db = Some rows →
  let window := filter (λ r, now env - 86400 ≤ row_timestamp r) rows in
  Forall measurements_numeric window →
  let temp := non_null (row_temperature <$> window) in
  let hum := non_null (row_humidity <$> window) in
  let gas := non_null (row_gas_analog <$> window) in
  get_stats env db
  = (mkResponse
       (JObj {[ "total_readings" := JInt (Z.of_nat (length window));
                "temperature" :=
                  JObj {[ "average" := displayed sql_avg temp;
                          "min" := displayed sql_min temp;
                          "max" := displayed sql_max temp ]};
                "humidity" :=
                  JObj {[ "average" := displayed sql_avg hum;
                          "min" := displayed sql_min hum;
                          "max" := displayed sql_max hum ]};
                "gas" := JObj {[ "average" := displayed sql_avg gas;
                                 "max" := displayed sql_max gas ]} ]})
       200, db)
  ∧ (Forall (λ r, row_temperature r = SNull) window →
     field (body (get_stats env db).1) "temperature"
     = Some (JObj {[ "average" := JInt 0; "min" := JInt 0; "max" := JInt 0 ]}))
  ∧ (Forall (λ r, row_humidity r = SNull) window →
     field (body (get_stats env db).1) "humidity"
     = Some (JObj {[ "average" := JInt 0; "min" := JInt 0; "max" := JInt 0 ]}))
  ∧ (Forall (λ r, row_gas_analog r = SNull) window →
     field (body (get_stats env db).1) "gas"
     = Some (JObj {[ "average" := JInt 0; "max" := JInt 0 ]})).
Proof.
  intros Hio Htab window Hnum temp hum gas.
  unfold window in Hnum. rewrite <- window_last_24_hours in Hnum.
  assert (∀ (f : Row real → sqlval real),
    Forall (λ r, f r = SNull) window → non_null (f <$> window) = []) as Hnull.
  { intros f. induction window as [|r w IH]; intros Hall; [done|].
    apply Forall_cons in Hall as [Hr Hall].
    rewrite fmap_cons, non_null_cons, Hr. simpl. by apply IH. }
  assert (get_stats env db
    = (mkResponse
         (JObj {[ "total_readings" := JInt (Z.of_nat (length window));
                  "temperature" :=
                    JObj {[ "average" := displayed sql_avg temp;
                            "min" := displayed sql_min temp;
                            "max" := displayed sql_max temp ]};
                  "humidity" :=
                    JObj {[ "average" := displayed sql_avg hum;
                            "min" := displayed sql_min hum;
                            "max" := displayed sql_max hum ]};
                  "gas" := JObj {[ "average" := displayed sql_avg gas;
                                   "max" := displayed sql_max gas ]} ]})
         200, db)) as Hrun.
  { rewrite (get_stats_numeric_window env db rows Hio Htab Hnum).
    unfold aggregate, temp, hum, gas. cbv beta iota zeta.
    rewrite window_last_24_hours.
    fold window. simpl total_readings. simpl avg_temp. simpl min_temp.
    simpl max_temp. simpl avg_humidity. simpl min_humidity. simpl max_humidity.
    simpl avg_gas. simpl max_gas.
    rewrite !(displayed_non_null sql_avg) by (apply sql_avg_non_null || reflexivity).
    rewrite !(displayed_non_null sql_min) by (apply sql_min_non_null || reflexivity).
    rewrite !(displayed_non_null sql_max) by (apply sql_max_non_null || reflexivity).
    reflexivity. }
  split; [exact Hrun|]. rewrite Hrun. unfold field. simpl body.
  repeat split; intros Hall.
  - rewrite lookup_insert_ne, lookup_insert_eq by done.
    unfold temp. by rewrite (Hnull _ Hall).
  - rewrite !lookup_insert_ne, lookup_insert_eq by done.
    unfold hum. by rewrite (Hnull _ Hall).
  - rewrite !lookup_insert_ne, lookup_singleton_eq by done.
    unfold gas. by rewrite (Hnull _ Hall).
Qed.

(** C3, as amended. With storage available, when a payload carries for
    device_id a string that UTF-8 can encode, for temperature and humidity
    numbers (64-bit integers or floats other than NaN) and for gas_analog and
    gas_digital 64-bit integers, and every stored row is strictly older than
    the second of the insertion, then ingesting the payload answers 201 and
    [GET /api/sensor-data] with limit 1 returns one record whose device_id,
    gas_analog and gas_digital equal the ingested values and whose
    temperature and humidity are the ingested numbers as floats: an integer
    as the float of that integer, a float as itself (negative zero as 0.0). *)
Theorem ingest_then_recent env env' args m db rows d tv hv ga gd :
  io_fault env = None → write_fault env = None → io_fault env' = None →
  db_table db = Some rows →
  Forall (λ r, row_timestamp r < now env) rows →
  m !! "device_id" = Some (JStr d) → encodable d = true →
  m !! "temperature" = Some tv → number tv →
  m !! "humidity" = Some hv → number hv →
  m !! "gas_analog" = Some (JInt ga) → int64 ga = true →
  m !! "gas_digital" = Some (JInt gd) → int64 gd = true →
  args_get_int args "limit" 100 = 1 →
  ∃ db' record,
    receive_sensor_data env (Json (JObj m)) db = (created, db')
    ∧ get_sensor_data env' args db' = (mkResponse (JArr [record]) 200, db')
    ∧ field record "device_id" = Some (JStr d)
    ∧ field record "temperature" = Some (as_real tv)
    ∧ field record "humidity" = Some (as_real hv)
    ∧ field record "gas_analog" = Some (JInt ga)
    ∧ field record "gas_digital" = Some (JInt gd)
    ∧ (∀ x, tv = JFloat x → (∀ z, to_int_exact x = Some z → of_int z = x) →
         field record "temperature" = Some (JFloat x))
    ∧ (∀ x, hv = JFloat x → (∀ z, to_int_exact x = Some z → of_int z = x) →
         field record "humidity" = Some (JFloat x)).
Proof.
  intros Hio Hw Hio' Htab Hold Hd Hdenc Ht Htn Hh Hhn Hga Hga64 Hgd Hgd64 Hargs.
  set (r := reading (next_rowid rows (db_seq db)) env
              (bound (payload_device_id m))
              (bound (payload_value m "temperature"))
              (bound (payload_value m "humidity"))
              (bound (payload_value m "gas_analog"))
              (bound (payload_value m "gas_digital"))).
  exists (mkDb (Some (rows ++ [r])) (next_rowid rows (db_seq db))), (reading_record r).
  split.
  { apply receive_sensor_data_stored; try done;
      unfold payload_device_id, payload_value;
      rewrite ?Hd, ?Ht, ?Hh, ?Hga, ?Hgd; simpl; try congruence.
    - destruct tv; simpl in *; try done; congruence.
    - destruct hv; simpl in *; try done; congruence. }
  split.
  { rewrite get_sensor_data_with_limit, Hargs.
    rewrite (recent_with_limit_rows env' 1 _ (rows ++ [r])) by done.
    rewrite order_by_newest by done. reflexivity. }
  assert (∀ j, number j → to_json (apply_affinity AffReal (bound j)) = as_real j)
    as Hreal.
  { intros [| | z | x | | | ]; simpl; try done. by intros ->. }
  unfold field, reading_record, r, reading, payload_device_id, payload_value.
  rewrite Hd, Ht, Hh, Hga, Hgd. simpl default.
  cbn [row_id row_timestamp row_device_id row_temperature row_humidity
       row_gas_analog row_gas_digital].
  rewrite !(Hreal _ Htn), !(Hreal _ Hhn). simpl.
  repeat split; try done.
  - intros x -> Hx. rewrite lookup_insert_ne, lookup_insert_ne, lookup_insert_ne,
      lookup_insert_eq by done.
    simpl. unfold real_readback. destruct (to_int_exact x) eqn:Hz; [|done].
    by rewrite (Hx _ eq_refl).
  - intros x -> Hx. rewrite !lookup_insert_ne, lookup_insert_eq by done.
    simpl. unfold real_readback. destruct (to_int_exact x) eqn:Hz; [|done].
    by rewrite (Hx _ eq_refl).
Qed.

(** C4, as amended. With storage available, [GET /api/latest] on an empty
    table answers 404 with a message, which is not the error answer (400
    with an [error] member); on a table of exactly one reading it answers
    200 with exactly five members: the timestamp of that reading as text,
    and its temperature, humidity, gas_analog and gas_digital, each cell
    shown as the JSON value it holds. The id and the device_id of the
    reading are not returned. *)
Theorem get_latest_empty_or_single env db :
  io_fault env = None →
  (db_table db = Some [] →
     get_latest env db = (not_found, db)
     ∧ status (get_latest env db).1 = 404
     ∧ field (body (get_latest env db).1) "error" = None)
  ∧ (∀ r, db_table db = Some [r] →
     ∃ t h ga gd,
       get_latest env db
       = (mkResponse
            (JObj {[ "timestamp" := JStr (datetime_text (row_timestamp r));
                     "temperature" := t; "humidity" := h;
                     "gas_analog" := ga; "gas_digital" := gd ]})
            200, db)
       ∧ shown_as (row_temperature r) t ∧ shown_as (row_humidity r) h
       ∧ shown_as (row_gas_analog r) ga ∧ shown_as (row_gas_digital r) gd
       ∧ field (body (get_latest env db).1) "id" = None
       ∧ field (body (get_latest env db).1) "device_id" = None).
Proof.
  intros Hio. split.
  - intros Htab. by rewrite (get_latest_rows env db [] Hio Htab).
  - intros r Htab. rewrite (get_latest_rows env db [r] Hio Htab).
    exists (to_json (row_temperature r)), (to_json (row_humidity r)),
      (to_json (row_gas_analog r)), (to_json (row_gas_digital r)).
    split; [done|].
    assert (∀ v : sqlval real, shown_as v (to_json v)) as Hshown by by intros [].
    by repeat split.
Qed.

(** C5, as amended. With storage available, for every non-empty table the
    success body of [GET /api/latest] has exactly the five members
    timestamp, temperature, humidity, gas_analog and gas_digital; id and
    device_id are not in the returned record. *)
Theorem get_latest_fields env db rows :
  io_fault env = None → db_table db = Some rows → rows ≠ [] →
  ∃ m, get_latest env db = (mkResponse (JObj m) 200, db)
    ∧ dom m = ({[ "timestamp"; "temperature"; "humidity"; "gas_analog";
                  "gas_digital" ]} : gset string)
    ∧ m !! "id" = None ∧ m !! "device_id" = None.
Proof.
  intros Hio Htab Hne. rewrite (get_latest_rows env db rows Hio Htab).
  destruct (order_by_timestamp_desc rows) as [|r l] eqn:Hs.
  { apply (f_equal length) in Hs.
    rewrite length_order_by_timestamp_desc in Hs. by destruct rows. }
  simpl. eexists. split; [reflexivity|].
  split; [|done].
  rewrite !dom_insert_L, dom_singleton_L. reflexivity.
Qed.

(** C6, as amended. [POST /api/sensor-data] answers 400 in every failure:
    when the body does not parse, when it is not a mapping, and when the
    storage write fails; the table is left as it was. The body of the answer
    is structured: [status] is ["error"] and [message] is the text of the
    failure. *)
Theorem receive_sensor_data_failures env db :
  (∀ why, receive_sensor_data env (NotJson why) db = (rejected why, db))
  ∧ (∀ data, (∀ m, data ≠ JObj m) →
       ∃ message, receive_sensor_data env (Json data) db = (rejected message, db))
  ∧ (∀ m message, io_fault env = Some message →
       receive_sensor_data env (Json (JObj m)) db = (rejected message, db))
  ∧ (∀ message,
       let answer : Response real := rejected message in
       status answer = 400
       ∧ field (body answer) "status" = Some (JStr "error")
       ∧ field (body answer) "message" = Some (JStr message))
  ∧ (∀ m message, write_fault env = Some message →
       ∃ shown, receive_sensor_data env (Json (JObj m)) db = (rejected shown, db)).
Proof.
  split; [done|]. split.
  { intros data Hdata.
    destruct data; try (eexists; reflexivity). by destruct (Hdata m). }
  split.
  { intros m message Hio.
    unfold receive_sensor_data, get_json, dict_get. run_statements.
    by rewrite Hio. }
  split; [done|].
  intros m message Hw.
  pose proof (receive_sensor_data_status env (Json (JObj m)) db) as Hst.
  destruct (receive_sensor_data env (Json (JObj m)) db) as [resp db'] eqn:Hrun.
  destruct Hst as [-> | (shown & -> & ->)]; [|by exists shown].
  apply receive_sensor_data_written in Hrun. congruence.
Qed.


(** C8, as amended. When the [limit] parameter is absent, or present with a
    value that [int] refuses, [GET /api/sensor-data] answers as it does to a
    request that asks for the limit 100: with storage available, 200 with
    the min(N, 100) most recent of the N rows. On an empty table, with
    storage available and a limit that fits 64 bits when [int] accepts it,
    the answer is 200 with the empty sequence. *)
Theorem get_sensor_data_default_limit env args db :
  (args !! "limit" = None ∨ (∃ s, args !! "limit" = Some s ∧ py_int s = None) →
     (∀ args' s, args' !! "limit" = Some s → py_int s = Some 100 →
        get_sensor_data env args db = get_sensor_data env args' db)
     ∧ (∀ rows, io_fault env = None → db_table db = Some rows →
        let recent := take 100 (order_by_timestamp_desc rows) in
        get_sensor_data env args db
        = (mkResponse (JArr (reading_record <$> recent)) 200, db)
        ∧ length recent = (length rows `min` 100)%nat))
  ∧ (io_fault env = None → db_table db = Some [] → limit_fits args →
     get_sensor_data env args db = (mkResponse (JArr []) 200, db)).
Proof.
  split.
  - intros Hlimit.
    assert (args_get_int args "limit" 100 = 100) as Hdefault.
    { unfold args_get_int.
      destruct Hlimit as [-> | (s & -> & Hs)]; [done|]. by rewrite Hs. }
    split.
    + intros args' s Hs Hint. rewrite !get_sensor_data_with_limit, Hdefault.
      unfold args_get_int. by rewrite Hs, Hint.
    + intros rows Hio Htab recent.
      rewrite get_sensor_data_with_limit, Hdefault.
      rewrite (recent_with_limit_rows env 100 db rows Hio Htab eq_refl).
      split; [done|].
      unfold recent. rewrite length_take, length_order_by_timestamp_desc. lia.
  - intros Hio Htab Hfits.
    assert (int64 (args_get_int args "limit" 100) = true) as Hlim.
    { unfold limit_fits in Hfits. unfold args_get_int.
      destruct (args !! "limit") as [s|]; [|done].
      by destruct (py_int s). }
    rewrite get_sensor_data_with_limit.
    rewrite (recent_with_limit_rows env _ db [] Hio Htab Hlim).
    unfold sql_limit, order_by_timestamp_desc. simpl.
    destruct (_ <? 0); [done|]. by rewrite take_nil.
Qed.

(** C9, as amended. With storage available and the four measurements of the
    payload bindable (none of them a list, an object, an integer beyond 64
    bits or a string with a lone surrogate), a payload whose device_id
    member is present and null is accepted and stored with a NULL
    device_id, not ["unknown"]; the default ["unknown"] is stored when the
    device_id member is absent. *)
Theorem receive_null_device_id env m db rows :
  io_fault env = None → write_fault env = None → db_table db = Some rows →
  ¬ unbindable (payload_value m "temperature") →
  ¬ unbindable (payload_value m "humidity") →
  ¬ unbindable (payload_value m "gas_analog") →
  ¬ unbindable (payload_value m "gas_digital") →
  let i := next_rowid rows (db_seq db) in
  let stored d :=
    reading i env d
      (bound (payload_value m "temperature")) (bound (payload_value m "humidity"))
      (bound (payload_value m "gas_analog")) (bound (payload_value m "gas_digital")) in
  (m !! "device_id" = Some JNull →
     receive_sensor_data env (Json (JObj m)) db
     = (created, mkDb (Some (rows ++ [stored SNull])) i)
     ∧ row_device_id (stored SNull) = SNull)
  ∧ (m !! "device_id" = None →
     receive_sensor_data env (Json (JObj m)) db
     = (created, mkDb (Some (rows ++ [stored (SText "unknown")])) i)
     ∧ row_device_id (stored (SText "unknown")) = SText "unknown").
Proof.
  intros Hio Hw Htab Ht Hh Hga Hgd i stored. split; intros Hd.
  - split; [|done].
    rewrite (receive_sensor_data_stored env m db rows) by
      (try done; unfold payload_device_id; rewrite Hd; simpl; tauto).
    unfold stored, i, payload_device_id. by rewrite Hd.
  - split; [|done].
    rewrite (receive_sensor_data_stored env m db rows) by
      (try done; unfold payload_device_id; rewrite Hd; simpl; by intros [=]).
    unfold stored, i, payload_device_id. by rewrite Hd.
Qed.

(** C10. A [timestamp] member of the payload changes nothing: the answer and
    the table are those of the payload without it; and whenever a reading is
    stored, its timestamp is the time of the server at the insertion. *)
Theorem receive_ignores_timestamp env m v db :
  receive_sensor_data env (Json (JObj (<["timestamp" := v]> m))) db
  = receive_sensor_data env (Json (JObj m)) db
  ∧ (∀ resp db',
       receive_sensor_data env (Json (JObj (<["timestamp" := v]> m))) db = (resp, db') →
       status resp = 201 →
       ∃ rows r, db_table db = Some rows ∧ db_table db' = Some (rows ++ [r])
                 ∧ row_timestamp r = now env).
Proof.
  split.
  - unfold receive_sensor_data, get_json, dict_get. run_statements.
    by rewrite !lookup_insert_ne by done.
  - intros resp db' Hrun Hst.
    destruct (receive_sensor_data_created _ _ _ _ _ Hrun Hst)
      as (m' & rows & d & t & h & ga & gd & _ & _ & Htab & _ & _ & _ & _ & _ & ->).
    by exists rows, (reading (next_rowid rows (db_seq db)) env d t h ga gd).
Qed.

End Properties.

(** ** The properties at concrete requests *)

Section Evidence.
Import Scenario.
#[local] Existing Instance Exact.platform.

(** Closes a goal about concrete values by evaluation. *)
Ltac evaluate := vm_compute; first [reflexivity | repeat constructor].

(** C1 fails as stated: two readings posted within one second are returned
    in the order they arrived, id 1 before id 2, not by descending id. *)
Lemma recent_ties_in_arrival_order :
  receive_sensor_data (clock t0) (Json (JObj esp1)) started = (created, one_reading)
  ∧ receive_sensor_data (clock t0) (Json (JObj esp2)) one_reading = (created, same_second)
  ∧ get_sensor_data (clock t0) (limit_of "2") same_second
    = (mkResponse (JArr [reading_record row1; reading_record row2]) 200, same_second)
  ∧ row_timestamp row1 = row_timestamp row2
  ∧ row_id row1 < row_id row2
  ∧ ¬ StronglySorted newest_first [row1; row2].
Proof.
  split; [evaluate|]. split; [evaluate|]. split; [evaluate|].
  split; [evaluate|]. split; [evaluate|].
  intros Hs. apply StronglySorted_cons in Hs as [Hs _].
  apply Forall_cons in Hs as [[Hs|[_ Hs]] _]; vm_compute in Hs; discriminate Hs.
Qed.

(** Two readings of one second, limit 2. *)
Lemma get_sensor_data_recent_witness :
  get_sensor_data (clock t0) (limit_of "2") same_second
  = (mkResponse (JArr [reading_record row1; reading_record row2]) 200, same_second)
  ∧ length (sql_limit 2 (order_by_timestamp_desc [row1; row2])) = 2%nat
  ∧ StronglySorted not_older (sql_limit 2 (order_by_timestamp_desc [row1; row2]))
  ∧ StronglySorted arrival_first (sql_limit 2 (order_by_timestamp_desc [row1; row2])).
Proof.
  assert (io_fault (clock t0) = None) as Hio by evaluate.
  assert (db_table same_second = Some [row1; row2]) as Htab by evaluate.
  assert (args_get_int (limit_of "2") "limit" 100 = 2) as Hargs by evaluate.
  assert (0 < 2) as Hpos by evaluate.
  assert (int64 2 = true) as Hlim by evaluate.
  destruct (get_sensor_data_recent (clock t0) (limit_of "2") same_second
              [row1; row2] 2 Hio Htab Hargs Hpos Hlim)
    as (Hrun & Hlen & Hsorted & Hties).
  split; [exact Hrun|]. split; [exact Hlen|]. split; [exact Hsorted|].
  apply Hties. repeat constructor.
Defined.

(** One reading in the window, its temperature NULL. *)
Lemma get_stats_excludes_nulls_witness :
  get_stats (clock t0) only_nulls
  = (mkResponse
       (JObj {[ "total_readings" := JInt 1;
                "temperature" :=
                  JObj {[ "average" := JInt 0; "min" := JInt 0; "max" := JInt 0 ]};
                "humidity" :=
                  JObj {[ "average" := JFloat (50 # 1)%Q;
                          "min" := JFloat (50 # 1)%Q;
                          "max" := JFloat (50 # 1)%Q ]};
                "gas" := JObj {[ "average" := JFloat (100 # 1)%Q;
                                 "max" := JInt 100 ]} ]})
       200, only_nulls)
  ∧ field (body (get_stats (clock t0) only_nulls).1) "temperature"
    = Some (JObj {[ "average" := JInt 0; "min" := JInt 0; "max" := JInt 0 ]}).
Proof.
  set (row := mkRow 1 t0 (SText "esp1") SNull (SReal (50 # 1)%Q) (SInt 100) SNull).
  assert (io_fault (clock t0) = None) as Hio by evaluate.
  assert (db_table only_nulls = Some [row]) as Htab by evaluate.
  assert (Forall measurements_numeric
            (filter (λ r, now (clock t0) - 86400 ≤ row_timestamp r) [row]))
    as Hnum by evaluate.
  destruct (get_stats_excludes_nulls (clock t0) only_nulls [row] Hio Htab Hnum)
    as (Hrun & Htemp & _ & _).
  split.
  - rewrite Hrun. evaluate.
  - apply Htemp. evaluate.
Defined.

(** C2 fails as stated: a payload whose humidity is a text is accepted, and
    over the table it leaves, whose only reading has a null temperature,
    the statistics are an error answer, not zeros with a count of 1. *)
Lemma stats_refused_with_text_humidity :
  receive_sensor_data (clock t0) (Json (JObj text_humidity)) started
  = (created, text_table)
  ∧ db_table text_table = Some [text_row]
  ∧ row_temperature text_row = SNull
  ∧ now (clock (t0 + 10)) - 86400 ≤ row_timestamp text_row
  ∧ get_stats (clock (t0 + 10)) text_table
    = (failed "type str doesn't define __round__ method", text_table)
  ∧ status (get_stats (clock (t0 + 10)) text_table).1 = 400
  ∧ field (body (get_stats (clock (t0 + 10)) text_table).1) "total_readings" = None
  ∧ field (body (get_stats (clock (t0 + 10)) text_table).1) "temperature" = None.
Proof.
  split; [evaluate|]. split; [evaluate|]. split; [evaluate|].
  split; [by vm_compute|]. split; [evaluate|]. split; [evaluate|].
  split; evaluate.
Qed.

(** C3 fails as stated: a reading ingested in the second in which the newest
    stored reading arrived is accepted, and the query with limit 1 still
    returns the stored one, whose temperature is not the ingested one. *)
Lemma recent_after_ingest_same_second :
  db_table one_reading = Some [row1]
  ∧ receive_sensor_data (clock t0) (Json (JObj esp2)) one_reading = (created, same_second)
  ∧ get_sensor_data (clock t0) (limit_of "1") same_second
    = (mkResponse (JArr [reading_record row1]) 200, same_second)
  ∧ field (reading_record row1) "temperature" = Some (JFloat (45 # 2)%Q)
  ∧ esp2 !! "temperature" = Some (JFloat (30 # 1)%Q)
  ∧ field (reading_record row1) "temperature" ≠ esp2 !! "temperature".
Proof.
  split; [evaluate|]. split; [evaluate|]. split; [evaluate|].
  assert (field (reading_record row1) "temperature" = Some (JFloat (45 # 2)%Q))
    as Hold by evaluate.
  assert (esp2 !! "temperature" = Some (JFloat (30 # 1)%Q)) as Hnew by evaluate.
  split; [exact Hold|]. split; [exact Hnew|].
  rewrite Hold, Hnew. discriminate.
Qed.

(** The payload of the specification's scenario, ingested one second after
    the stored reading: the humidity 60 is read back as 60.0. *)
Lemma ingest_then_recent_witness :
  ∃ db' record,
    receive_sensor_data (clock (t0 + 1)) (Json (JObj whole_humidity)) one_reading
    = (created, db')
    ∧ get_sensor_data (clock (t0 + 5)) (limit_of "1") db'
      = (mkResponse (JArr [record]) 200, db')
    ∧ field record "device_id" = Some (JStr "esp1")
    ∧ field record "temperature" = Some (JFloat (45 # 2)%Q)
    ∧ field record "humidity" = Some (JFloat (60 # 1)%Q)
    ∧ field record "gas_analog" = Some (JInt 150)
    ∧ field record "gas_digital" = Some (JInt 0).
Proof.
  assert (io_fault (clock (t0 + 1)) = None) as Hio by evaluate.
  assert (write_fault (clock (t0 + 1)) = None) as Hw by evaluate.
  assert (io_fault (clock (t0 + 5)) = None) as Hio' by evaluate.
  assert (db_table one_reading = Some [row1]) as Htab by evaluate.
  assert (Forall (λ r : Row Q, row_timestamp r < now (clock (t0 + 1))) [row1])
    as Hold by (repeat constructor).
  assert (whole_humidity !! "device_id" = Some (JStr "esp1")) as Hd by evaluate.
  assert (encodable "esp1" = true) as Hdenc by evaluate.
  assert (whole_humidity !! "temperature" = Some (JFloat (45 # 2)%Q)) as Ht by evaluate.
  assert (number (JFloat (45 # 2)%Q)) as Htn by evaluate.
  assert (whole_humidity !! "humidity" = Some (JInt 60)) as Hh by evaluate.
  assert (number (JInt 60 : json Q)) as Hhn by evaluate.
  assert (whole_humidity !! "gas_analog" = Some (JInt 150)) as Hga by evaluate.
  assert (whole_humidity !! "gas_digital" = Some (JInt 0)) as Hgd by evaluate.
  assert (args_get_int (limit_of "1") "limit" 100 = 1) as Hargs by evaluate.
  destruct (ingest_then_recent (clock (t0 + 1)) (clock (t0 + 5)) (limit_of "1")
              whole_humidity one_reading [row1] "esp1" (JFloat (45 # 2)%Q) (JInt 60)
              150 0 Hio Hw Hio' Htab Hold Hd Hdenc Ht Htn Hh Hhn Hga eq_refl
              Hgd eq_refl Hargs)
    as (db' & record & Hpost & Hget & Hdev & Htemp & Hhum & Hgas & Hdig & _).
  exists db', record.
  split; [exact Hpost|]. split; [exact Hget|]. split; [exact Hdev|].
  split; [exact Htemp|]. split; [exact Hhum|]. split; [exact Hgas|exact Hdig].
Defined.

(** The table after start-up and the table of one reading. *)
Lemma get_latest_empty_or_single_witness :
  (get_latest (clock t0) started = (not_found, started)
   ∧ status (get_latest (clock t0) started).1 = 404
   ∧ field (body (get_latest (clock t0) started).1) "error" = None)
  ∧ ∃ t h ga gd,
      get_latest (clock t0) one_reading
      = (mkResponse
           (JObj {[ "timestamp" := JStr (datetime_text (row_timestamp row1));
                    "temperature" := t; "humidity" := h;
                    "gas_analog" := ga; "gas_digital" := gd ]})
           200, one_reading)
      ∧ shown_as (row_temperature row1) t ∧ shown_as (row_humidity row1) h
      ∧ shown_as (row_gas_analog row1) ga ∧ shown_as (row_gas_digital row1) gd
      ∧ field (body (get_latest (clock t0) one_reading).1) "id" = None
      ∧ field (body (get_latest (clock t0) one_reading).1) "device_id" = None.
Proof.
  assert (io_fault (clock t0) = None) as Hio by evaluate.
  assert (db_table started = Some []) as Hempty by evaluate.
  assert (db_table one_reading = Some [row1]) as Hone by evaluate.
  split.
  - exact (proj1 (get_latest_empty_or_single (clock t0) started Hio) Hempty).
  - exact (proj2 (get_latest_empty_or_single (clock t0) one_reading Hio)
             row1 Hone).
Defined.

(** C4 fails as stated: two tables of exactly one reading each, the
    readings sent by different devices, get the same answer, which names
    no device: the answer is not the reading. *)
Lemma latest_same_for_two_readings :
  db_table one_reading = Some [row1]
  ∧ db_table one_reading_from_esp2 = Some [row1_from_esp2]
  ∧ row_device_id row1 = SText "esp1"
  ∧ row_device_id row1_from_esp2 = SText "esp2"
  ∧ row1 ≠ row1_from_esp2
  ∧ (get_latest (clock t0) one_reading).1
    = (get_latest (clock t0) one_reading_from_esp2).1
  ∧ status (get_latest (clock t0) one_reading).1 = 200
  ∧ body (get_latest (clock t0) one_reading).1 ≠ reading_record row1.
Proof.
  split; [evaluate|]. split; [evaluate|]. split; [evaluate|]. split; [evaluate|].
  split; [intros H; apply (f_equal row_device_id) in H; vm_compute in H;
          discriminate H|].
  split; [evaluate|]. split; [evaluate|].
  intros H. apply (f_equal (λ j, field j "device_id")) in H.
  vm_compute in H. discriminate H.
Qed.

(** C5 fails as stated: the answer of [GET /api/latest] on a table of one
    reading is a success and has neither an [id] nor a [device_id] member. *)
Lemma get_latest_without_id :
  db_table one_reading = Some [row1]
  ∧ status (get_latest (clock t0) one_reading).1 = 200
  ∧ field (body (get_latest (clock t0) one_reading).1) "id" = None
  ∧ field (body (get_latest (clock t0) one_reading).1) "device_id" = None.
Proof. repeat split; evaluate. Qed.

(** The table of one reading. *)
Lemma get_latest_fields_witness :
  ∃ m, get_latest (clock t0) one_reading = (mkResponse (JObj m) 200, one_reading)
    ∧ dom m = ({[ "timestamp"; "temperature"; "humidity"; "gas_analog";
                  "gas_digital" ]} : gset string)
    ∧ m !! "id" = None ∧ m !! "device_id" = None.
Proof.
  assert (io_fault (clock t0) = None) as Hio by evaluate.
  assert (db_table one_reading = Some [row1]) as Htab by evaluate.
  assert ([row1] ≠ []) as Hne by discriminate.
  exact (get_latest_fields (clock t0) one_reading [row1] Hio Htab Hne).
Defined.

(** C6 fails as stated: when the storage write fails the answer is 400, not
    a 5xx status, the same status as for a body that does not parse. *)
Lemma storage_failure_answers_400 :
  io_fault (broken t0) = Some "disk I/O error"
  ∧ receive_sensor_data (broken t0) (Json (JObj esp1)) started
    = (rejected "disk I/O error", started)
  ∧ status (receive_sensor_data (broken t0) (Json (JObj esp1)) started).1 = 400
  ∧ ¬ (500 ≤ status (receive_sensor_data (broken t0) (Json (JObj esp1)) started).1 ≤ 599)
  ∧ status (receive_sensor_data (clock t0) (NotJson "Failed to decode JSON object") started).1
    = 400.
Proof.
  split; [evaluate|]. split; [evaluate|].
  assert (status (receive_sensor_data (broken t0) (Json (JObj esp1)) started).1 = 400)
    as Hst by evaluate.
  split; [exact Hst|]. split; [rewrite Hst; lia|evaluate].
Qed.

(** Failing storage, a body that does not parse, a body that is a list. *)
Lemma receive_sensor_data_failures_witness :
  receive_sensor_data (broken t0) (Json (JObj esp1)) started
  = (rejected "disk I/O error", started)
  ∧ receive_sensor_data (broken t0) (NotJson "Failed to decode JSON object") started
    = (rejected "Failed to decode JSON object", started)
  ∧ (∃ message,
       receive_sensor_data (broken t0) (Json (JArr [])) started
       = (rejected message, started)).
Proof.
  destruct (receive_sensor_data_failures (broken t0) started)
    as (Hparse & Hshape & Hio & _).
  split; [|split].
  - apply Hio. evaluate.
  - apply Hparse.
  - apply Hshape. discriminate.
Defined.


(** [?limit=abc], on a table of one reading and on the empty table. *)
Lemma get_sensor_data_default_limit_witness :
  (get_sensor_data (clock t0) (limit_of "abc") one_reading
   = get_sensor_data (clock t0) (limit_of "100") one_reading
   ∧ get_sensor_data (clock t0) (limit_of "abc") one_reading
     = (mkResponse (JArr [reading_record row1]) 200, one_reading))
  ∧ get_sensor_data (clock t0) (limit_of "abc") started
    = (mkResponse (JArr []) 200, started).
Proof.
  assert (limit_of "abc" !! "limit" = Some "abc") as Harg by evaluate.
  assert (py_int "abc" = None) as Hint by evaluate.
  assert (limit_of "100" !! "limit" = Some "100") as Harg' by evaluate.
  assert (py_int "100" = Some 100) as Hint' by evaluate.
  assert (io_fault (clock t0) = None) as Hio by evaluate.
  assert (db_table one_reading = Some [row1]) as Hone by evaluate.
  assert (db_table started = Some []) as Hempty by evaluate.
  assert (limit_fits (limit_of "abc")) as Hfits by evaluate.
  destruct (get_sensor_data_default_limit (clock t0) (limit_of "abc") one_reading)
    as [Hdefault _].
  destruct Hdefault as [Hsame Hrows];
    [right; exists "abc"; split; [exact Harg|exact Hint]|].
  split; [split|].
  - exact (Hsame (limit_of "100") "100" Harg' Hint').
  - exact (proj1 (Hrows [row1] Hio Hone)).
  - exact (proj2 (get_sensor_data_default_limit (clock t0) (limit_of "abc") started)
             Hio Hempty Hfits).
Defined.

(** C8 fails as stated: on the empty table, a request whose limit is 2^63
    is answered with an error, not with the empty sequence. *)
Lemma recent_on_empty_table_refused :
  db_table started = Some []
  ∧ get_sensor_data (clock t0) (limit_of "9223372036854775808") started
    = (failed "Python int too large to convert to SQLite INTEGER", started)
  ∧ status (get_sensor_data (clock t0) (limit_of "9223372036854775808") started).1
    = 400.
Proof. split; [evaluate|]. split; evaluate. Qed.

(** A payload with a null device_id and a temperature. *)
Lemma receive_null_device_id_witness :
  receive_sensor_data (clock t0) (Json (JObj null_device)) started
  = (created, mkDb (Some [mkRow 1 t0 SNull (SReal (45 # 2)%Q) SNull SNull SNull]) 1).
Proof.
  assert (io_fault (clock t0) = None) as Hio by evaluate.
  assert (write_fault (clock t0) = None) as Hw by evaluate.
  assert (db_table started = Some []) as Htab by evaluate.
  assert (¬ unbindable (payload_value null_device "temperature")) as Ht
    by (vm_compute; tauto).
  assert (¬ unbindable (payload_value null_device "humidity")) as Hh
    by (vm_compute; tauto).
  assert (¬ unbindable (payload_value null_device "gas_analog")) as Hga
    by (vm_compute; tauto).
  assert (¬ unbindable (payload_value null_device "gas_digital")) as Hgd
    by (vm_compute; tauto).
  assert (null_device !! "device_id" = Some JNull) as Hd by evaluate.
  destruct (proj1 (receive_null_device_id (clock t0) null_device started []
                     Hio Hw Htab Ht Hh Hga Hgd) Hd) as [Hrun _].
  rewrite Hrun. evaluate.
Defined.

(** C9 fails as stated: a payload whose device_id is null and whose
    temperature is a list is refused, and nothing is stored. *)
Lemma null_device_id_with_list_refused :
  null_device_list !! "device_id" = Some JNull
  ∧ receive_sensor_data (clock t0) (Json (JObj null_device_list)) started
    = (rejected "Error binding parameter 2: type 'list' is not supported", started)
  ∧ status (receive_sensor_data (clock t0) (Json (JObj null_device_list)) started).1
    = 400.
Proof. split; [evaluate|]. split; evaluate. Qed.

(** A payload that carries a timestamp of its own. *)
Lemma receive_ignores_timestamp_witness :
  receive_sensor_data (clock t0)
    (Json (JObj (<["timestamp" := JStr "1999-12-31 23:59:59"]> esp1))) started
  = receive_sensor_data (clock t0) (Json (JObj esp1)) started
  ∧ ∃ rows r,
      db_table started = Some rows ∧ db_table one_reading = Some (rows ++ [r])
      ∧ row_timestamp r = now (clock t0).
Proof.
  destruct (receive_ignores_timestamp (clock t0) esp1
              (JStr "1999-12-31 23:59:59") started) as [Hsame Hstamp].
  split; [exact Hsame|].
  apply (Hstamp created one_reading); evaluate.
Defined.

(** The scenarios of the specification. *)
Example post_then_latest :
  receive_sensor_data (clock t0) (Json (JObj esp1)) started = (created, one_reading)
  ∧ get_latest (clock (t0 + 3)) one_reading
    = (mkResponse
         (JObj {[ "timestamp" := JStr "2023-11-14 22:13:20";
                  "temperature" := JFloat (45 # 2)%Q;
                  "humidity" := JFloat (60 # 1)%Q;
                  "gas_analog" := JInt 150;
                  "gas_digital" := JInt 0 ]})
         200, one_reading).
Proof. split; evaluate. Qed.

Example stats_on_empty_table :
  get_stats (clock t0) started
  = (mkResponse
       (JObj {[ "total_readings" := JInt 0;
                "temperature" :=
                  JObj {[ "average" := JInt 0; "min" := JInt 0; "max" := JInt 0 ]};
                "humidity" :=
                  JObj {[ "average" := JInt 0; "min" := JInt 0; "max" := JInt 0 ]};
                "gas" := JObj {[ "average" := JInt 0; "max" := JInt 0 ]} ]})
       200, started).
Proof. evaluate. Qed.

Example readings_older_than_a_day_are_not_counted :
  field (body (get_stats (clock (t0 + 86401)) one_reading).1) "total_readings"
  = Some (JInt 0)
  ∧ field (body (get_stats (clock (t0 + 86400)) one_reading).1) "total_readings"
    = Some (JInt 1).
Proof. split; evaluate. Qed.

(** A write that fails shows after the parameters were bound; a file that
    cannot be opened shows before. *)
Example write_failure_after_binding :
  receive_sensor_data (locked t0) (Json (JObj esp1)) started
  = (rejected "database is locked", started)
  ∧ receive_sensor_data (locked t0) (Json (JObj null_device_list)) started
    = (rejected "Error binding parameter 2: type 'list' is not supported", started)
  ∧ receive_sensor_data (broken t0) (Json (JObj null_device_list)) started
    = (rejected "disk I/O error", started)
  ∧ get_latest (locked t0) one_reading = get_latest (clock t0) one_reading.
Proof. split; [evaluate|]. split; [evaluate|]. split; evaluate. Qed.

(** A device_id that holds a lone surrogate is refused. *)
Example lone_surrogate_refused :
  encodable lone_surrogate = false
  ∧ encodable before_surrogates = true
  ∧ status (receive_sensor_data (clock t0) (Json (JObj surrogate_device)) started).1 = 400
  ∧ (receive_sensor_data (clock t0) (Json (JObj surrogate_device)) started).2 = started.
Proof. split; [evaluate|]. split; [evaluate|]. split; evaluate. Qed.

End Evidence.

(** ** Further properties of the handlers *)

Section Effects.
Context {real : Type} {platform : Platform real}.

Lemma read_only_ret {A} (a : A) : read_only (real:=real) (ret a).
Proof. intros db a' db' [= _ <-]. reflexivity. Qed.

Lemma read_only_raise {A} e : read_only (real:=real) (A:=A) (raise e).
Proof. intros db a db' [=]. Qed.

Lemma read_only_lift {A} (r : exn + A) : read_only (real:=real) (lift r).
Proof. destruct r; [apply read_only_raise|apply read_only_ret]. Qed.

Lemma read_only_bind {A B} (m : M real A) (k : A → M real B) :
  read_only m → (∀ a, read_only (k a)) → read_only (let* a := m in k a).
Proof.
  intros Hm Hk db b db'. unfold bind_M.
  destruct (m db) as [e|[a db1]] eqn:Hrun; [discriminate|].
  apply Hm in Hrun as ->. apply Hk.
Qed.

Lemma read_only_connect env : read_only (real:=real) (connect env).
Proof. unfold connect. destruct (io_fault env); [apply read_only_raise|apply read_only_ret]. Qed.

Lemma read_only_sensor_readings : read_only (real:=real) sensor_readings.
Proof.
  intros db rows db'. unfold sensor_readings.
  destruct (db_table db); [|discriminate]. by intros [= _ <-].
Qed.

(** A handler whose statements are read-only hands the database back. *)
Lemma try_except_read_only (m : M real (Response real)) handler db :
  read_only m → (try_except m handler db).2 = db.
Proof.
  intros Hm. unfold try_except.
  destruct (m db) as [e|[r db']] eqn:Hrun; [done|]. simpl. by apply Hm in Hrun.
Qed.

Lemma StronglySorted_ids_NoDup (rows : list (Row real)) :
  ids_increasing rows → NoDup (row_id <$> rows).
Proof.
  unfold ids_increasing. induction rows as [|r rows IH]; intros Hs; [constructor|].
  apply StronglySorted_cons in Hs as [Hr Hs]. rewrite fmap_cons.
  constructor; [|by apply IH].
  intros Hin. apply list_elem_of_fmap in Hin as (x & Hid & Hx).
  rewrite Forall_forall in Hr. specialize (Hr x Hx). lia.
Qed.

End Effects.

Section MoreOrdering.
Context {real : Type} {platform : Platform real}.

Lemma insert_by_timestamp_perm (r : Row real) l :
  insert_by_timestamp r l ≡ₚ r :: l.
Proof.
  induction l as [|y l IH]; simpl; [done|].
  destruct (row_timestamp y <? row_timestamp r); [done|].
  rewrite IH. apply Permutation_swap.
Qed.

(** Ordering neither drops nor repeats a row. *)
Lemma order_by_timestamp_desc_perm (rows : list (Row real)) :
  order_by_timestamp_desc rows ≡ₚ rows.
Proof.
  unfold order_by_timestamp_desc.
  assert (∀ acc : list (Row real),
    fold_left (λ sorted r, insert_by_timestamp r sorted) rows acc ≡ₚ rows ++ acc)
    as Hgen.
  { induction rows as [|r rows IH]; intros acc; simpl; [done|].
    rewrite IH, insert_by_timestamp_perm. by rewrite Permutation_middle. }
  rewrite Hgen. by rewrite app_nil_r.
Qed.

Lemma order_by_snoc (rows : list (Row real)) r :
  order_by_timestamp_desc (rows ++ [r])
  = insert_by_timestamp r (order_by_timestamp_desc rows).
Proof. unfold order_by_timestamp_desc. by rewrite fold_left_app. Qed.

(** The first row of the ordering is as recent as any row. *)
Lemma head_order_by_newest (rows : list (Row real)) y :
  head (order_by_timestamp_desc rows) = Some y →
  y ∈ rows ∧ Forall (λ x, row_timestamp x ≤ row_timestamp y) rows.
Proof.
  intros Hhead. apply head_Some in Hhead as [l Hl].
  pose proof (order_by_not_older rows) as Hs. rewrite Hl in Hs.
  apply StronglySorted_cons in Hs as [Hy _].
  split.
  - apply elem_of_order_by_timestamp_desc. rewrite Hl. by left.
  - apply Forall_forall. intros x Hx.
    apply elem_of_order_by_timestamp_desc in Hx. rewrite Hl in Hx.
    apply elem_of_cons in Hx as [->|Hx]; [lia|].
    rewrite Forall_forall in Hy. by apply Hy.
Qed.

Lemma insert_by_timestamp_newer (r : Row real) l :
  Forall (λ x, row_timestamp x < row_timestamp r) l →
  insert_by_timestamp r l = r :: l.
Proof.
  destruct l as [|y l]; [done|]. intros Hl. apply Forall_cons in Hl as [Hy _].
  simpl. by destruct (Z.ltb_spec (row_timestamp y) (row_timestamp r)); [|lia].
Qed.

(** When every row is newer than the rows before it, the ordering is the
    table read backwards. *)
Lemma order_by_reverse (rows : list (Row real)) :
  StronglySorted (λ a b, row_timestamp a < row_timestamp b) rows →
  order_by_timestamp_desc rows = reverse rows.
Proof.
  unfold order_by_timestamp_desc.
  assert (∀ acc : list (Row real),
    StronglySorted (λ a b, row_timestamp a < row_timestamp b) rows →
    Forall (λ a, Forall (λ r, row_timestamp a < row_timestamp r) rows) acc →
    fold_left (λ sorted r, insert_by_timestamp r sorted) rows acc
    = reverse rows ++ acc) as Hgen.
  { induction rows as [|r rows IH]; intros acc Hs Hacc; simpl; [done|].
    apply StronglySorted_cons in Hs as [Hr Hs].
    rewrite insert_by_timestamp_newer.
    - rewrite IH; [by rewrite reverse_cons, <- app_assoc|done|].
      constructor; [done|].
      eapply Forall_impl; [exact Hacc|]. intros a Ha.
      by apply Forall_cons in Ha as [_ ?].
    - eapply Forall_impl; [exact Hacc|]. intros a Ha.
      by apply Forall_cons in Ha as [? _]. }
  intros Hs. rewrite Hgen by (done || constructor). by rewrite app_nil_r.
Qed.

Lemma StronglySorted_reverse {A} (R : relation A) (l : list A) :
  StronglySorted R l → StronglySorted (flip R) (reverse l).
Proof.
  induction l as [|x l IH]; intros Hs; [constructor|].
  apply StronglySorted_cons in Hs as [Hx Hs]. rewrite reverse_cons.
  apply StronglySorted_app. split; [|split; [by apply IH|repeat constructor]].
  intros y z Hy Hz. apply list_elem_of_singleton in Hz as ->.
  rewrite elem_of_reverse in Hy. rewrite Forall_forall in Hx.
  unfold flip. by apply Hx.
Qed.

Lemma StronglySorted_weaken {A} (R1 R2 : relation A) (l : list A) :
  (∀ a b, R1 a b → R2 a b) → StronglySorted R1 l → StronglySorted R2 l.
Proof.
  intros Himp. induction 1 as [|x l Hl IH Hx]; constructor; [done|].
  eapply Forall_impl; [exact Hx|]. intros b. apply Himp.
Qed.

End MoreOrdering.

Section MoreAggregation.
Context {real : Type} {platform : Platform real}.

(** A number, a boolean or null is stored as a number or NULL in a REAL and
    in an INTEGER column. *)
Lemma numeric_json_stored n (j : json real) v :
  numeric_json j → bind n j = inr v →
  numeric (apply_affinity AffReal v) ∧ numeric (apply_affinity AffInteger v).
Proof.
  destruct j; simpl; try done.
  - by intros _ [= <-].
  - by intros _ [= <-].
  - intros _. destruct (int64 z); [|done]. by intros [= <-].
  - intros _ [= <-]. destruct (is_nan x); simpl; [done|].
    unfold integer_if_exact. by destruct (to_int_exact x).
Qed.

(** [round] fails in one way only. *)
Lemma round_or_zero_cases (v : sqlval real) :
  (∃ j, round_or_zero v = inr j)
  ∨ round_or_zero v = inl (Raise TypeError "type str doesn't define __round__ method").
Proof.
  destruct v; simpl; try (left; by eexists).
  destruct (decide (s = "")); [left; by eexists|by right].
Qed.

Lemma round_or_zero_nonempty_text (v : sqlval real) :
  nonempty_text v →
  round_or_zero v = inl (Raise TypeError "type str doesn't define __round__ method").
Proof. destruct v; simpl; try done. intros Hs. by destruct (decide (s = "")). Qed.

(** Once [MAX] holds a text that is not empty it keeps holding one. *)
Lemma minmax_keeps_nonempty_text (col : list (sqlval real)) : ∀ best,
  nonempty_text best → nonempty_text (fold_left (minmax_step Lt) col best).
Proof.
  induction col as [|v col IH]; intros best Hbest; [done|].
  simpl. apply IH.
  destruct best as [| | |s]; try done. simpl in Hbest.
  destruct v as [| | |t]; simpl; try done.
  destruct (String.compare s t) eqn:Hcmp; simpl; try done.
  destruct t; [|done]. by destruct s.
Qed.

(** [MAX] of a column that holds a text that is not empty is such a text:
    texts sort after all numbers. *)
Lemma sql_max_nonempty_text (col : list (sqlval real)) v :
  v ∈ col → nonempty_text v → nonempty_text (sql_max col).
Proof.
  intros Hin Hv. unfold sql_max.
  apply list_elem_of_split in Hin as (l1 & l2 & ->).
  rewrite fold_left_app. simpl. apply minmax_keeps_nonempty_text.
  destruct v as [| | |s]; try done. simpl in Hv.
  destruct (fold_left (minmax_step Lt) l1 SNull) as [| | |s0]; simpl; try done.
  destruct (String.compare s0 s) eqn:Hcmp; simpl; try done.
  - intros ->. by destruct s.
  - intros ->. by destruct s.
Qed.

(** [MAX] over integers and NULLs is the largest integer of the column. *)
Lemma minmax_integers (col : list (sqlval real)) : ∀ best,
  Forall integer_or_null col → integer_or_null best →
  integer_or_null (fold_left (minmax_step Lt) col best)
  ∧ (fold_left (minmax_step Lt) col best = best
     ∨ fold_left (minmax_step Lt) col best ∈ col)
  ∧ ∀ z, SInt z ∈ col ∨ best = SInt z →
         ∃ m, fold_left (minmax_step Lt) col best = SInt m ∧ z ≤ m.
Proof.
  induction col as [|v col IH]; intros best Hcol Hbest.
  - simpl. split; [done|]. split; [by left|].
    intros z [Hz| ->]; [by apply elem_of_nil in Hz|]. exists z. split; [done|lia].
  - apply Forall_cons in Hcol as [Hv Hcol]. simpl.
    set (best1 := minmax_step Lt best v).
    assert (integer_or_null best1
            ∧ (best1 = best ∨ best1 = v)
            ∧ ∀ z, v = SInt z ∨ best = SInt z → ∃ m, best1 = SInt m ∧ z ≤ m)
      as (Hint1 & Hfrom & Hge).
    { unfold best1.
      destruct v as [|a| |]; try done; destruct best as [|b| |]; try done; simpl.
      - split; [done|]. split; [by left|]. by intros z [?|?].
      - split; [done|]. split; [by left|].
        intros z [?|[= <-]]; [done|]. exists b. split; [done|lia].
      - split; [done|]. split; [by right|].
        intros z [[= <-]|?]; [|done]. exists a. split; [done|lia].
      - destruct (Z.compare_spec b a); simpl.
        + split; [done|]. split; [by left|].
          intros z [[= <-]|[= <-]]; exists b; split; try done; lia.
        + split; [done|]. split; [by right|].
          intros z [[= <-]|[= <-]]; exists a; split; try done; lia.
        + split; [done|]. split; [by left|].
          intros z [[= <-]|[= <-]]; exists b; split; try done; lia. }
    destruct (IH best1 Hcol Hint1) as (Hres & Hmem & Hmax).
    split; [done|]. split.
    + destruct Hmem as [->|Hmem]; [|right; by right].
      destruct Hfrom as [->| ->]; [by left|right; by left].
    + intros z Hz.
      assert (SInt z ∈ col ∨ v = SInt z ∨ best = SInt z) as [Hc|Hvb].
      { destruct Hz as [Hz|Hz]; [|by right; right].
        apply elem_of_cons in Hz as [Hz|Hz]; [right; by left|by left]. }
      * apply Hmax. by left.
      * destruct (Hge z Hvb) as (m1 & Hm1 & Hle).
        destruct (Hmax m1 (or_intror Hm1)) as (m & Hm & Hle').
        exists m. split; [done|lia].
Qed.

(** A text cell of the window shows in one of the three maxima. *)
Lemma window_text_max env (rows : list (Row real)) r :
  r ∈ rows → in_window env r = true →
  nonempty_text (row_temperature r) ∨ nonempty_text (row_humidity r)
  ∨ nonempty_text (row_gas_analog r) →
  let row := aggregate (filter (λ r, in_window env r = true) rows) in
  nonempty_text (max_temp row) ∨ nonempty_text (max_humidity row)
  ∨ nonempty_text (max_gas row).
Proof.
  intros Hr Hwin Htext.
  set (window := filter (λ r, in_window env r = true) rows).
  assert (r ∈ window) as Hrw by (by apply list_elem_of_filter).
  unfold aggregate. simpl.
  destruct Htext as [Ht|[Ht|Ht]]; [left|right; left|right; right];
    (eapply sql_max_nonempty_text; [|exact Ht]);
    by apply list_elem_of_fmap_2.
Qed.

(** [round] raises on a maximum that is a text, and the handler answers 400. *)
Lemma get_stats_text_max env (db : Db real) rows :
  io_fault env = None → db_table db = Some rows →
  (let row := aggregate (filter (λ r, in_window env r = true) rows) in
   nonempty_text (max_temp row) ∨ nonempty_text (max_humidity row)
   ∨ nonempty_text (max_gas row)) →
  get_stats env db = (failed "type str doesn't define __round__ method", db).
Proof.
  intros Hio Htab Hmax.
  set (window := filter (λ r, in_window env r = true) rows) in *.
  unfold get_stats, select_stats. run_statements.
  rewrite Hio, Htab. cbv beta iota. fold window.
  destruct (round_or_zero_cases (avg_temp (aggregate window))) as [[? ->]| ->]; [|done].
  destruct (round_or_zero_cases (min_temp (aggregate window))) as [[? ->]| ->]; [|done].
  destruct (round_or_zero_cases (max_temp (aggregate window))) as [[? Ht]| ->]; [|done].
  rewrite Ht.
  destruct (round_or_zero_cases (avg_humidity (aggregate window))) as [[? ->]| ->]; [|done].
  destruct (round_or_zero_cases (min_humidity (aggregate window))) as [[? ->]| ->]; [|done].
  destruct (round_or_zero_cases (max_humidity (aggregate window))) as [[? Hh]| ->]; [|done].
  rewrite Hh.
  destruct (round_or_zero_cases (avg_gas (aggregate window))) as [[? ->]| ->]; [|done].
  destruct (round_or_zero_cases (max_gas (aggregate window))) as [[? Hg]| ->]; [|done].
  destruct Hmax as [Hm|[Hm|Hm]]; apply round_or_zero_nonempty_text in Hm; congruence.
Qed.

End MoreAggregation.

Section Coverage.
Context {real : Type} {platform : Platform real}.

(** X1. The three GET handlers never change the database, whatever the
    request, the table and the state of the storage. *)
Theorem get_handlers_read_only env args (db : Db real) :
  (get_sensor_data env args db).2 = db
  ∧ (get_latest env db).2 = db
  ∧ (get_stats env db).2 = db.
Proof.
  repeat split; apply try_except_read_only.
  - apply read_only_bind; [apply read_only_connect|intros _].
    apply read_only_bind; [|intros rows; apply read_only_ret].
    unfold select_recent.
    apply read_only_bind; [apply read_only_sensor_readings|intros rows].
    apply read_only_bind; [apply read_only_lift|intros _; apply read_only_ret].
  - apply read_only_bind; [apply read_only_connect|intros _].
    apply read_only_bind.
    + unfold select_latest.
      apply read_only_bind; [apply read_only_sensor_readings|intros rows].
      apply read_only_ret.
    + intros [[[[[ts t] h] ga] gd]|]; apply read_only_ret.
  - apply read_only_bind; [apply read_only_connect|intros _].
    apply read_only_bind.
    + unfold select_stats.
      apply read_only_bind; [apply read_only_sensor_readings|intros rows].
      apply read_only_ret.
    + intros row.
      repeat (apply read_only_bind; [apply read_only_lift|intros ?]).
      apply read_only_ret.
Qed.

(** X2. A POST is all or nothing: either it answers 201 and the table grows
    by exactly one row at its end, whose id is one more than the largest id
    ever handed out and whose timestamp is the server's clock, or it answers
    400 and the database is exactly as before. *)
Theorem receive_sensor_data_all_or_nothing env request (db : Db real) :
  let '(resp, db') := receive_sensor_data env request db in
  (resp = created
   ∧ ∃ rows r, db_table db = Some rows ∧ db_table db' = Some (rows ++ [r])
       ∧ row_id r = next_rowid rows (db_seq db) ∧ db_seq db' = row_id r
       ∧ row_timestamp r = now env)
  ∨ (∃ message, resp = rejected message ∧ db' = db).
Proof.
  destruct (receive_sensor_data env request db) as [resp db'] eqn:Hrun.
  pose proof (receive_sensor_data_status env request db) as Hst.
  rewrite Hrun in Hst. destruct Hst as [-> | Hrej]; [left|by right].
  split; [done|].
  apply receive_sensor_data_created in Hrun as
    (m & rows & d & t & h & ga & gd & _ & _ & Htab & _ & _ & _ & _ & _ & ->);
    [|done].
  by exists rows, (reading (next_rowid rows (db_seq db)) env d t h ga gd).
Qed.

(** X3. While the storage fails, each GET handler answers 400 with the text
    of the failure under [error], the dashboard's [get_latest_reading]
    returns [None], and [health_check] still answers 200. *)
Theorem storage_failure_on_reads env args isoformat (db : Db real) message :
  io_fault env = Some message →
  get_sensor_data env args db = (failed message, db)
  ∧ get_latest env db = (failed message, db)
  ∧ get_stats env db = (failed message, db)
  ∧ get_latest_reading env db = None
  ∧ status (health_check isoformat db).1 = 200.
Proof.
  intros Hio.
  unfold get_sensor_data, get_latest, get_stats, get_latest_reading.
  run_statements. by rewrite Hio.
Qed.


(** X5. Stored readings are never altered or removed by ingestion: after any
    sequence of POST requests the table is the old table followed by at most
    one new row per request; from a table whose ids grow along the rows and
    stay below the counter, the ids still grow, so no two rows share an id. *)
Theorem serve_posts_append_only requests (db : Db real) rows :
  db_table db = Some rows →
  ∃ added,
    db_table (serve_posts requests db) = Some (rows ++ added)
    ∧ (length added ≤ length requests)%nat
    ∧ (wf_db db → wf_db (serve_posts requests db)
                  ∧ NoDup (row_id <$> rows ++ added)).
Proof.
  revert db rows. induction requests as [|[env request] requests IH];
    intros db rows Htab.
  - exists []. rewrite app_nil_r. simpl. split; [done|]. split; [lia|].
    intros Hwf. split; [done|]. apply StronglySorted_ids_NoDup.
    unfold wf_db in Hwf. rewrite Htab in Hwf. by destruct Hwf.
  - simpl.
    pose proof (receive_sensor_data_status env request db) as Hstep.
    pose proof (receive_sensor_data_wf env request db) as Hkeep.
    destruct (receive_sensor_data env request db) as [resp db1] eqn:Hrun.
    simpl in *.
    destruct Hstep as [-> | (message & _ & ->)].
    + apply receive_sensor_data_created in Hrun as
        (m & rows0 & d & t & h & ga & gd & _ & _ & Htab0 & _ & _ & _ & _ & _ & ->);
        [|done].
      rewrite Htab in Htab0. injection Htab0 as <-.
      set (r := reading (next_rowid rows (db_seq db)) env d t h ga gd) in *.
      destruct (IH (mkDb (Some (rows ++ [r])) (next_rowid rows (db_seq db)))
                  (rows ++ [r]) eq_refl) as (added & Hfinal & Hlen & Hwf).
      exists (r :: added). rewrite <- app_assoc in Hfinal. simpl in Hfinal.
      split; [done|]. split; [simpl; lia|].
      intros Hdb. destruct (Hwf (Hkeep Hdb)) as [Hwf' Hnd].
      split; [done|]. by rewrite <- app_assoc in Hnd.
    + destruct (IH db rows Htab) as (added & Hfinal & Hlen & Hwf).
      exists added. split; [done|]. split; [lia|done].
Qed.

(** The answer to a mapping depends on the five extracted values only. *)
Lemma receive_sensor_data_ext env (m1 m2 : gmap string (json real)) db :
  payload_device_id m1 = payload_device_id m2 →
  payload_value m1 "temperature" = payload_value m2 "temperature" →
  payload_value m1 "humidity" = payload_value m2 "humidity" →
  payload_value m1 "gas_analog" = payload_value m2 "gas_analog" →
  payload_value m1 "gas_digital" = payload_value m2 "gas_digital" →
  receive_sensor_data env (Json (JObj m1)) db
  = receive_sensor_data env (Json (JObj m2)) db.
Proof.
  unfold payload_device_id, payload_value. intros Hd Ht Hh Hga Hgd.
  unfold receive_sensor_data, get_json, dict_get. run_statements.
  by rewrite Hd, Ht, Hh, Hga, Hgd.
Qed.

(** X6. For the four measurements an explicit null and an absent key are the
    same request: adding [key: null] to a payload that lacks the key changes
    neither the answer nor the table (unlike device_id, whose absence means
    "unknown"). *)
Theorem measurement_null_is_absent env (m : gmap string (json real)) k db :
  k ∈ ["temperature"; "humidity"; "gas_analog"; "gas_digital"] →
  m !! k = None →
  receive_sensor_data env (Json (JObj (<[k := JNull]> m))) db
  = receive_sensor_data env (Json (JObj m)) db.
Proof.
  intros Hk Hm.
  apply receive_sensor_data_ext; unfold payload_device_id, payload_value;
    repeat (apply elem_of_cons in Hk as [->|Hk]);
    try (by apply elem_of_nil in Hk);
    rewrite ?lookup_insert_eq, ?Hm; by rewrite ?lookup_insert_ne by done.
Qed.

(** X7. Members of the payload other than the five the handler reads are
    ignored, whatever their name and value: in particular a client can
    choose neither the id nor the timestamp of a reading. *)
Theorem receive_ignores_other_keys env (m : gmap string (json real)) k v db :
  k ∉ ["device_id"; "temperature"; "humidity"; "gas_analog"; "gas_digital"] →
  receive_sensor_data env (Json (JObj (<[k := v]> m))) db
  = receive_sensor_data env (Json (JObj m)) db.
Proof.
  intros Hk.
  assert (∀ k', k' ∈ ["device_id"; "temperature"; "humidity"; "gas_analog";
                      "gas_digital"] → <[k := v]> m !! k' = m !! k') as Hsame.
  { intros k' Hk'. apply lookup_insert_ne. by intros ->. }
  apply receive_sensor_data_ext; unfold payload_device_id, payload_value;
    rewrite Hsame; try done; repeat constructor.
Qed.

(** X8. A payload is refused as a whole when one of the five extracted
    values cannot be bound (a list, an object, an integer beyond 64 bits,
    or a string with a lone surrogate): the answer is 400 and nothing is
    stored, whatever the other fields hold. *)
Theorem receive_unbindable_rejected env (m : gmap string (json real)) db :
  unbindable (payload_device_id m)
  ∨ unbindable (payload_value m "temperature")
  ∨ unbindable (payload_value m "humidity")
  ∨ unbindable (payload_value m "gas_analog")
  ∨ unbindable (payload_value m "gas_digital") →
  ∃ message, receive_sensor_data env (Json (JObj m)) db = (rejected message, db).
Proof.
  intros Hbad.
  destruct (receive_sensor_data env (Json (JObj m)) db) as [resp db'] eqn:Hrun.
  pose proof (receive_sensor_data_status env (Json (JObj m)) db) as Hst.
  rewrite Hrun in Hst.
  destruct Hst as [-> | (message & -> & ->)]; [|by exists message].
  apply receive_sensor_data_created in Hrun as
    (m' & rows & d & t & h & ga & gd & [= <-] & _ & _ & Hd & Ht & Hh & Hga & Hgd & _);
    [|done].
  destruct Hbad as [Hb|[Hb|[Hb|[Hb|Hb]]]];
    [apply (unbindable_bind 1) in Hb as [e He]
    |apply (unbindable_bind 2) in Hb as [e He]
    |apply (unbindable_bind 3) in Hb as [e He]
    |apply (unbindable_bind 4) in Hb as [e He]
    |apply (unbindable_bind 5) in Hb as [e He]]; congruence.
Qed.

(** X9. What comes back is what SQLite stored, not what was sent: with
    storage available and every stored row strictly older than the
    insertion, a payload without device_id and humidity, with an integer
    temperature that fits 64 bits, a null gas_analog and a boolean
    gas_digital is accepted, and the newest record shows device_id
    "unknown", the temperature as the float of that integer, humidity and
    gas_analog null, and gas_digital as the integer 1 or 0. *)
Theorem ingest_then_recent_coerced env env' args (m : gmap string (json real))
    db rows z b :
  io_fault env = None → write_fault env = None → io_fault env' = None →
  db_table db = Some rows →
  Forall (λ r, row_timestamp r < now env) rows →
  m !! "device_id" = None →
  m !! "temperature" = Some (JInt z) → int64 z = true →
  m !! "humidity" = None →
  m !! "gas_analog" = Some JNull →
  m !! "gas_digital" = Some (JBool b) →
  args_get_int args "limit" 100 = 1 →
  ∃ db' record,
    receive_sensor_data env (Json (JObj m)) db = (created, db')
    ∧ get_sensor_data env' args db' = (mkResponse (JArr [record]) 200, db')
    ∧ field record "device_id" = Some (JStr "unknown")
    ∧ field record "temperature" = Some (JFloat (of_int z))
    ∧ field record "humidity" = Some JNull
    ∧ field record "gas_analog" = Some JNull
    ∧ field record "gas_digital" = Some (JInt (if b then 1 else 0)).
Proof.
  intros Hio Hw Hio' Htab Hold Hd Ht Hz Hh Hga Hgd Hargs.
  set (r := reading (next_rowid rows (db_seq db)) env
              (SText "unknown") (SInt z) SNull SNull
              (SInt (if b then 1 else 0))).
  exists (mkDb (Some (rows ++ [r])) (next_rowid rows (db_seq db))), (reading_record r).
  split.
  { rewrite (receive_sensor_data_stored env m db rows) by
      (try done; unfold payload_device_id, payload_value;
       rewrite ?Hd, ?Ht, ?Hh, ?Hga, ?Hgd; simpl; (tauto || congruence)).
    unfold r, payload_device_id, payload_value.
    by rewrite Hd, Ht, Hh, Hga, Hgd. }
  split.
  { rewrite get_sensor_data_with_limit, Hargs.
    rewrite (recent_with_limit_rows env' 1 _ (rows ++ [r])) by done.
    rewrite order_by_newest by done. reflexivity. }
  unfold field, reading_record. simpl. by repeat split.
Qed.

(** X10. The limit is taken as it comes: with storage available and a
    limit that fits 64 bits, a limit of 0 answers 200 with the empty
    sequence although rows exist, and a negative limit (which SQLite reads
    as no limit) answers 200 with every row of the table, each once. *)
Theorem get_sensor_data_nonpositive_limit env args (db : Db real) rows :
  io_fault env = None → db_table db = Some rows →
  int64 (args_get_int args "limit" 100) = true →
  (args_get_int args "limit" 100 = 0 →
     get_sensor_data env args db = (mkResponse (JArr []) 200, db))
  ∧ (args_get_int args "limit" 100 < 0 →
     ∃ recent, get_sensor_data env args db
               = (mkResponse (JArr (reading_record <$> recent)) 200, db)
               ∧ recent ≡ₚ rows).
Proof.
  intros Hio Htab Hlim.
  rewrite get_sensor_data_with_limit.
  rewrite (recent_with_limit_rows env _ db rows Hio Htab Hlim).
  split.
  - intros ->. reflexivity.
  - intros Hneg. exists (order_by_timestamp_desc rows).
    split; [|apply order_by_timestamp_desc_perm].
    unfold sql_limit. by destruct (Z.ltb_spec (args_get_int args "limit" 100) 0); [|lia].
Qed.

(** X11. With storage available and the table in place, a limit beyond 64
    bits is refused by the [sqlite3] module: the answer is 400 with its
    message, whatever the table holds. *)
Theorem get_sensor_data_limit_overflow env args (db : Db real) rows :
  io_fault env = None → db_table db = Some rows →
  int64 (args_get_int args "limit" 100) = false →
  get_sensor_data env args db
  = (failed "Python int too large to convert to SQLite INTEGER", db).
Proof.
  intros Hio Htab Hlim.
  unfold get_sensor_data, select_recent. run_statements.
  rewrite Hio, Htab. cbv beta iota. unfold bind. by rewrite Hlim.
Qed.

(** X12. The records returned are the most recent rows: with storage
    available and a limit of at least 0 that fits 64 bits, the rows returned
    together with the rows left out are the rows of the table, each once; no
    row left out is newer than a row returned; and nothing is left out when
    the limit is at least the number of rows. *)
Theorem recent_rows_are_newest env args (db : Db real) rows :
  io_fault env = None → db_table db = Some rows →
  int64 (args_get_int args "limit" 100) = true →
  0 ≤ args_get_int args "limit" 100 →
  ∃ recent omitted,
    get_sensor_data env args db
    = (mkResponse (JArr (reading_record <$> recent)) 200, db)
    ∧ recent ++ omitted ≡ₚ rows
    ∧ (∀ r r', r ∈ recent → r' ∈ omitted → row_timestamp r' ≤ row_timestamp r)
    ∧ ((length rows ≤ Z.to_nat (args_get_int args "limit" 100))%nat → omitted = []).
Proof.
  intros Hio Htab Hlim Hpos.
  set (n := Z.to_nat (args_get_int args "limit" 100)).
  exists (take n (order_by_timestamp_desc rows)),
         (drop n (order_by_timestamp_desc rows)).
  split.
  { rewrite get_sensor_data_with_limit.
    rewrite (recent_with_limit_rows env _ db rows Hio Htab Hlim).
    unfold sql_limit. by destruct (Z.ltb_spec (args_get_int args "limit" 100) 0); [lia|]. }
  split; [rewrite take_drop; apply order_by_timestamp_desc_perm|].
  split.
  - intros r r' Hr Hr'.
    pose proof (order_by_not_older rows) as Hs.
    rewrite <- (take_drop n (order_by_timestamp_desc rows)) in Hs.
    by apply (StronglySorted_app_1_elem_of _ _ _ r r') in Hs.
  - intros Hlen. apply drop_ge. by rewrite length_order_by_timestamp_desc.
Qed.

(** X13. When every reading of the table arrived in a later second than the
    readings before it, with storage available and a limit that fits 64
    bits, [GET /api/sensor-data] returns the table read backwards, cut at
    the limit: the records come strictly newest first, so no tie is left to
    break. *)
Theorem recent_is_reverse_when_seconds_distinct env args (db : Db real) rows :
  io_fault env = None → db_table db = Some rows →
  int64 (args_get_int args "limit" 100) = true →
  StronglySorted (λ a b, row_timestamp a < row_timestamp b) rows →
  get_sensor_data env args db
  = (mkResponse
       (JArr (reading_record <$> sql_limit (args_get_int args "limit" 100) (reverse rows)))
       200, db)
  ∧ StronglySorted newest_first
      (sql_limit (args_get_int args "limit" 100) (reverse rows)).
Proof.
  intros Hio Htab Hlim Hts.
  rewrite get_sensor_data_with_limit.
  rewrite (recent_with_limit_rows env _ db rows Hio Htab Hlim).
  rewrite (order_by_reverse rows Hts). split; [done|].
  apply StronglySorted_sql_limit.
  apply StronglySorted_reverse in Hts.
  eapply StronglySorted_weaken; [|exact Hts].
  intros a b Hab. by left.
Qed.

(** X14. [GET /api/latest] and [GET /api/sensor-data] with limit 1 show the
    same row: with storage available, either the table is empty (404, and the
    empty sequence), or both answer 200 for one row of the table that is at
    least as recent as every row; with ids growing along the table it is,
    among the rows of that timestamp, the one with the smallest id. *)
Theorem get_latest_is_first_recent env env' args (db : Db real) rows :
  io_fault env = None → io_fault env' = None → db_table db = Some rows →
  args_get_int args "limit" 100 = 1 →
  (rows = []
   ∧ get_latest env db = (not_found, db)
   ∧ get_sensor_data env' args db = (mkResponse (JArr []) 200, db))
  ∨ (∃ r, r ∈ rows
       ∧ Forall (λ x, row_timestamp x ≤ row_timestamp r) rows
       ∧ (ids_increasing rows →
          Forall (λ x, row_timestamp x = row_timestamp r → row_id r ≤ row_id x) rows)
       ∧ get_latest env db = (mkResponse (latest_record r) 200, db)
       ∧ get_sensor_data env' args db
         = (mkResponse (JArr [reading_record r]) 200, db)).
Proof.
  intros Hio Hio' Htab Hargs.
  rewrite (get_latest_rows env db rows Hio Htab).
  rewrite get_sensor_data_with_limit, Hargs.
  rewrite (recent_with_limit_rows env' 1 db rows Hio' Htab eq_refl).
  destruct (order_by_timestamp_desc rows) as [|r l] eqn:Hs.
  - left. split; [|done].
    apply (f_equal length) in Hs. rewrite length_order_by_timestamp_desc in Hs.
    by destruct rows.
  - right. exists r.
    destruct (head_order_by_newest rows r) as [Hin Hmax]; [by rewrite Hs|].
    split; [done|]. split; [done|]. split; [|done].
    intros Hids. pose proof (order_by_arrival_first rows Hids) as Hord.
    rewrite Hs in Hord. apply StronglySorted_cons in Hord as [Hr _].
    apply Forall_forall. intros x Hx Hts.
    apply elem_of_order_by_timestamp_desc in Hx. rewrite Hs in Hx.
    apply elem_of_cons in Hx as [->|Hx]; [lia|].
    rewrite Forall_forall in Hr. destruct (Hr x Hx) as [?|[_ ?]]; lia.
Qed.

(** X15. A reading that arrives in a second for which the table already
    holds a reading (or a later one) does not show in [GET /api/latest]:
    the POST is accepted, and the answer of [get_latest] after it is the 200
    answer it gave before. *)
Theorem latest_unchanged_within_second env env' request (db db' : Db real) rows x :
  io_fault env' = None → db_table db = Some rows →
  x ∈ rows → now env ≤ row_timestamp x →
  receive_sensor_data env request db = (created, db') →
  (get_latest env' db').1 = (get_latest env' db).1
  ∧ status (get_latest env' db).1 = 200.
Proof.
  intros Hio Htab Hx Hnow Hrun.
  apply receive_sensor_data_created in Hrun as
    (m & rows0 & d & t & h & ga & gd & _ & _ & Htab0 & _ & _ & _ & _ & _ & ->);
    [|done].
  rewrite Htab in Htab0. injection Htab0 as <-.
  rewrite (get_latest_rows env' db rows Hio Htab).
  set (r := reading (next_rowid rows (db_seq db)) env d t h ga gd).
  rewrite (get_latest_rows env' (mkDb (Some (rows ++ [r])) (next_rowid rows (db_seq db)))
             (rows ++ [r]) Hio eq_refl).
  rewrite order_by_snoc.
  destruct (order_by_timestamp_desc rows) as [|y l] eqn:Hs.
  { apply elem_of_order_by_timestamp_desc in Hx. rewrite Hs in Hx.
    by apply elem_of_nil in Hx. }
  destruct (head_order_by_newest rows y) as [_ Hmax]; [by rewrite Hs|].
  rewrite Forall_forall in Hmax. specialize (Hmax x Hx).
  simpl.
  destruct (Z.ltb_spec (row_timestamp y) (now env)); [lia|]. done.
Qed.

(** X16. Numeric input keeps the statistics working: from a table whose
    measurement cells are numbers or NULL, after any sequence of POST
    requests whose temperature, humidity and gas_analog are numbers,
    booleans, null or absent, the cells are still numbers or NULL, and
    [GET /api/stats] answers 200 whenever the storage is available. *)
Theorem numeric_requests_keep_stats_working requests (db : Db real) rows :
  db_table db = Some rows → Forall measurements_numeric rows →
  Forall (λ er, numeric_request er.2) requests →
  (∃ rows', db_table (serve_posts requests db) = Some rows'
            ∧ Forall measurements_numeric rows')
  ∧ ∀ env, io_fault env = None →
           status (get_stats env (serve_posts requests db)).1 = 200.
Proof.
  intros Htab Hnum Hreqs.
  assert (∃ rows', db_table (serve_posts requests db) = Some rows'
                   ∧ Forall measurements_numeric rows') as (rows' & Htab' & Hnum').
  { revert db rows Htab Hnum.
    induction Hreqs as [|[env request] requests Hreq _ IH]; intros db rows Htab Hnum.
    - by exists rows.
    - simpl in *.
      destruct (receive_sensor_data env request db) as [resp db1] eqn:Hrun.
      pose proof (receive_sensor_data_status env request db) as Hst.
      rewrite Hrun in Hst. simpl.
      destruct Hst as [-> | (message & _ & ->)]; [|by apply (IH db rows)].
      apply receive_sensor_data_created in Hrun as
        (m & rows0 & d & t & h & ga & gd & -> & _ & Htab0 & _ & Ht & Hh & Hga & _ & ->);
        [|done].
      rewrite Htab in Htab0. injection Htab0 as <-.
      destruct Hreq as (Hjt & Hjh & Hjg).
      eapply IH; [reflexivity|].
      apply Forall_app. split; [done|]. repeat constructor; simpl.
      + by apply (numeric_json_stored _ _ _ Hjt Ht).
      + by apply (numeric_json_stored _ _ _ Hjh Hh).
      + by apply (numeric_json_stored _ _ _ Hjg Hga). }
  split; [by exists rows'|].
  intros env Hio.
  by rewrite (get_stats_numeric env _ rows' Hio Htab' Hnum').
Qed.

(** X17. An accepted reading counts in the statistics for 24 hours: with the
    storage available and the measurement cells numbers or NULL,
    [total_readings] after an accepted POST is one more than before when the
    statistics are asked within 86400 seconds of the insertion, and the same
    as before when they are asked later. *)
Theorem post_counts_in_stats env env' request (db db' : Db real) rows rows' :
  io_fault env' = None → db_table db = Some rows →
  receive_sensor_data env request db = (created, db') →
  db_table db' = Some rows' → Forall measurements_numeric rows' →
  ∃ n,
    field (body (get_stats env' db).1) "total_readings" = Some (JInt n)
    ∧ (now env' - 86400 ≤ now env →
       field (body (get_stats env' db').1) "total_readings" = Some (JInt (n + 1)))
    ∧ (now env < now env' - 86400 →
       field (body (get_stats env' db').1) "total_readings" = Some (JInt n)).
Proof.
  intros Hio Htab Hrun Htab' Hnum'.
  apply receive_sensor_data_created in Hrun as
    (m & rows0 & d & t & h & ga & gd & _ & _ & Htab0 & _ & _ & _ & _ & _ & ->);
    [|done].
  rewrite Htab in Htab0. injection Htab0 as <-.
  simpl in Htab'. injection Htab' as <-.
  assert (Forall measurements_numeric rows) as Hnum
    by (by apply Forall_app in Hnum' as [? _]).
  set (r := reading (next_rowid rows (db_seq db)) env d t h ga gd) in *.
  exists (Z.of_nat (length (filter (λ r, in_window env' r = true) rows))).
  rewrite (get_stats_numeric env' db rows Hio Htab Hnum).
  rewrite (get_stats_numeric env'
             (mkDb (Some (rows ++ [r])) (next_rowid rows (db_seq db)))
             (rows ++ [r]) Hio eq_refl Hnum').
  unfold field, aggregate. simpl.
  rewrite !lookup_insert_eq.
  split; [done|].
  rewrite filter_app, length_app.
  split; intros Hwin.
  - rewrite filter_cons_True; [|unfold in_window; simpl; lia].
    simpl. do 2 f_equal. lia.
  - rewrite filter_cons_False; [|unfold in_window; simpl; lia].
    simpl. do 2 f_equal. lia.
Qed.

(** X18. One text cell stops the statistics: with the storage available,
    when a row of the trailing 24 hours holds a text that is not empty in
    temperature, humidity or gas_analog, [GET /api/stats] answers 400 with
    the [TypeError] of [round], whatever the other rows hold. *)
Theorem get_stats_text_cell env (db : Db real) rows r :
  io_fault env = None → db_table db = Some rows →
  r ∈ rows → in_window env r = true →
  nonempty_text (row_temperature r) ∨ nonempty_text (row_humidity r)
  ∨ nonempty_text (row_gas_analog r) →
  get_stats env db = (failed "type str doesn't define __round__ method", db).
Proof.
  intros Hio Htab Hr Hwin Htext.
  apply (get_stats_text_max env db rows Hio Htab).
  by apply (window_text_max env rows r).
Qed.

(** X19. Such a cell is one POST away: with the storage available, a payload
    whose humidity is a string that UTF-8 can encode, that is not empty and
    not a numeric literal, is accepted with 201 when its other values can be
    bound, and from then on, for 24 hours, [GET /api/stats] answers 400. *)
Theorem text_humidity_breaks_stats env env' (m : gmap string (json real))
    (db : Db real) rows s :
  io_fault env = None → write_fault env = None → io_fault env' = None →
  db_table db = Some rows →
  m !! "humidity" = Some (JStr s) → s ≠ "" → parse_num s = None →
  encodable s = true →
  ¬ unbindable (payload_device_id m) →
  ¬ unbindable (payload_value m "temperature") →
  ¬ unbindable (payload_value m "gas_analog") →
  ¬ unbindable (payload_value m "gas_digital") →
  now env' - 86400 ≤ now env →
  ∃ db', receive_sensor_data env (Json (JObj m)) db = (created, db')
         ∧ get_stats env' db'
           = (failed "type str doesn't define __round__ method", db').
Proof.
  intros Hio Hw Hio' Htab Hh Hs Hparse Henc Hd Ht Hga Hgd Hwin.
  eexists. split.
  - apply receive_sensor_data_stored; try done.
    unfold payload_value. rewrite Hh. simpl. congruence.
  - set (r := reading _ _ _ _ _ _ _).
    apply (get_stats_text_max env'
             (mkDb (Some (rows ++ [r])) (next_rowid rows (db_seq db)))
             (rows ++ [r]) Hio' eq_refl).
    apply (window_text_max env' (rows ++ [r]) r).
    + apply elem_of_app. right. by left.
    + unfold in_window. simpl. lia.
    + right. left. unfold r, payload_value. rewrite Hh. simpl. by rewrite Hparse.
Qed.

(** X20. The gas maximum is a maximum: with the storage available and the
    measurement cells numbers or NULL, when the gas_analog cells of the
    trailing 24 hours are integers or NULL and one of them is an integer,
    [gas.max] of [GET /api/stats] is an integer that some row of the window
    holds and that no gas_analog of the window exceeds. *)
Theorem gas_max_is_largest env (db : Db real) rows r z :
  io_fault env = None → db_table db = Some rows →
  Forall measurements_numeric rows →
  let window := filter (λ r, in_window env r = true) rows in
  Forall (λ r, integer_or_null (row_gas_analog r)) window →
  r ∈ window → row_gas_analog r = SInt z →
  ∃ gas m,
    field (body (get_stats env db).1) "gas" = Some gas
    ∧ field gas "max" = Some (JInt m)
    ∧ (∃ r', r' ∈ window ∧ row_gas_analog r' = SInt m)
    ∧ Forall (λ r', ∀ z', row_gas_analog r' = SInt z' → z' ≤ m) window.
Proof.
  intros Hio Htab Hnum window Hint Hr Hz.
  assert (Forall integer_or_null (row_gas_analog <$> window)) as Hcol
    by (by apply Forall_fmap).
  destruct (minmax_integers (row_gas_analog <$> window) SNull Hcol I)
    as (_ & Hmem & Hmax).
  fold (sql_max (row_gas_analog <$> window)) in Hmem, Hmax.
  destruct (Hmax z) as (m & Hm & _).
  { left. rewrite <- Hz. by apply list_elem_of_fmap_2. }
  rewrite (get_stats_numeric env db rows Hio Htab Hnum).
  fold window. unfold aggregate. simpl.
  eexists _, m. split; [by rewrite !lookup_insert_ne, lookup_singleton_eq by done|].
  split.
  { simpl. rewrite lookup_insert_ne, lookup_singleton_eq by done.
    rewrite Hm. unfold rounded. simpl.
    by destruct (Z.eqb_spec m 0) as [->|]. }
  split.
  - destruct Hmem as [Hmem|Hmem]; [congruence|].
    rewrite Hm in Hmem. apply list_elem_of_fmap in Hmem as (r' & Hr' & Hin).
    by exists r'.
  - apply Forall_forall. intros r' Hr' z' Hz'.
    destruct (Hmax z') as (m' & Hm' & Hle).
    { left. rewrite <- Hz'. by apply list_elem_of_fmap_2. }
    congruence.
Qed.

(** X21. The dashboard's [get_latest_reading] shows a reading exactly when
    [GET /api/latest] answers 200, and then it is the body of that answer;
    its [None] stands both for the empty table (404) and for a failure
    (400). *)
Theorem get_latest_reading_agrees env (db : Db real) :
  match get_latest_reading env db with
  | Some d => get_latest env db = (mkResponse (JObj d) 200, db)
  | None => status (get_latest env db).1 = 404 ∨ status (get_latest env db).1 = 400
  end.
Proof.
  unfold get_latest_reading, get_latest, select_latest. run_statements.
  destruct (io_fault env); [by right|].
  destruct (db_table db) as [rows|]; [|by right].
  destruct (head _) as [[[[[ts t] h] ga] gd]|]; [done|by left].
Qed.



End Coverage.

(** ** The further properties at concrete requests *)

Section MoreEvidence.
Import Scenario MoreScenarios.
#[local] Existing Instance Exact.platform.

Ltac evaluate := vm_compute; first [reflexivity | repeat constructor].

(** Failing storage under a table of one reading. *)
Lemma storage_failure_on_reads_witness :
  get_sensor_data (broken t0) (limit_of "2") one_reading
  = (failed "disk I/O error", one_reading)
  ∧ get_latest (broken t0) one_reading = (failed "disk I/O error", one_reading)
  ∧ get_stats (broken t0) one_reading = (failed "disk I/O error", one_reading)
  ∧ get_latest_reading (broken t0) one_reading = None
  ∧ status (health_check "2023-11-14T22:13:20.000000" one_reading).1 = 200.
Proof.
  assert (io_fault (broken t0) = Some "disk I/O error") as Hio by evaluate.
  exact (storage_failure_on_reads (broken t0) (limit_of "2")
           "2023-11-14T22:13:20.000000" one_reading "disk I/O error" Hio).
Defined.


(** Three requests on the empty table. *)
Lemma serve_posts_append_only_witness :
  ∃ added,
    db_table (serve_posts three_posts started) = Some ([] ++ added)
    ∧ (length added ≤ length three_posts)%nat
    ∧ (wf_db started → wf_db (serve_posts three_posts started)
                       ∧ NoDup (row_id <$> [] ++ added)).
Proof.
  assert (db_table started = Some []) as Htab by evaluate.
  exact (serve_posts_append_only three_posts started [] Htab).
Defined.

(** A payload without temperature, and the same with a null temperature. *)
Lemma measurement_null_is_absent_witness :
  receive_sensor_data (clock t0)
    (Json (JObj (<["temperature" := JNull]> no_temperature))) started
  = receive_sensor_data (clock t0) (Json (JObj no_temperature)) started.
Proof.
  assert ("temperature" ∈ ["temperature"; "humidity"; "gas_analog"; "gas_digital"])
    as Hk by (by left).
  assert (no_temperature !! "temperature" = None) as Hm by evaluate.
  exact (measurement_null_is_absent (clock t0) no_temperature "temperature"
           started Hk Hm).
Defined.

(** A payload that names an id. *)
Lemma receive_ignores_other_keys_witness :
  receive_sensor_data (clock t0) (Json (JObj (<["id" := JInt 99]> esp1))) started
  = receive_sensor_data (clock t0) (Json (JObj esp1)) started.
Proof.
  assert ("id" ∉ ["device_id"; "temperature"; "humidity"; "gas_analog"; "gas_digital"])
    as Hk.
  { intros Hin. repeat (apply elem_of_cons in Hin as [Hin|Hin]; [discriminate|]).
    by apply elem_of_nil in Hin. }
  exact (receive_ignores_other_keys (clock t0) esp1 "id" (JInt 99) started Hk).
Defined.

(** A temperature that is a list. *)
Lemma receive_unbindable_rejected_witness :
  ∃ message,
    receive_sensor_data (clock t0) (Json (JObj list_temperature)) one_reading
    = (rejected message, one_reading).
Proof.
  apply (receive_unbindable_rejected (clock t0) list_temperature one_reading).
  right. left. evaluate.
Defined.

(** An integer temperature and a boolean gas_digital, one second after the
    stored reading. *)
Lemma ingest_then_recent_coerced_witness :
  ∃ db' record,
    receive_sensor_data (clock (t0 + 1)) (Json (JObj coerced)) one_reading = (created, db')
    ∧ get_sensor_data (clock (t0 + 2)) (limit_of "1") db'
      = (mkResponse (JArr [record]) 200, db')
    ∧ field record "device_id" = Some (JStr "unknown")
    ∧ field record "temperature" = Some (JFloat (of_int 22))
    ∧ field record "humidity" = Some JNull
    ∧ field record "gas_analog" = Some JNull
    ∧ field record "gas_digital" = Some (JInt (if true then 1 else 0)).
Proof.
  assert (io_fault (clock (t0 + 1)) = None) as Hio by evaluate.
  assert (write_fault (clock (t0 + 1)) = None) as Hw by evaluate.
  assert (io_fault (clock (t0 + 2)) = None) as Hio' by evaluate.
  assert (db_table one_reading = Some [row1]) as Htab by evaluate.
  assert (Forall (λ r : Row Q, row_timestamp r < now (clock (t0 + 1))) [row1])
    as Hold by (repeat constructor).
  assert (coerced !! "device_id" = None) as Hd by evaluate.
  assert (coerced !! "temperature" = Some (JInt 22)) as Ht by evaluate.
  assert (coerced !! "humidity" = None) as Hh by evaluate.
  assert (coerced !! "gas_analog" = Some JNull) as Hga by evaluate.
  assert (coerced !! "gas_digital" = Some (JBool true)) as Hgd by evaluate.
  assert (args_get_int (limit_of "1") "limit" 100 = 1) as Hargs by evaluate.
  exact (ingest_then_recent_coerced (clock (t0 + 1)) (clock (t0 + 2)) (limit_of "1")
           coerced one_reading [row1] 22 true
           Hio Hw Hio' Htab Hold Hd Ht eq_refl Hh Hga Hgd Hargs).
Defined.

(** [?limit=0] and [?limit=-1] on a table of two readings. *)
Lemma get_sensor_data_nonpositive_limit_witness :
  get_sensor_data (clock t0) (limit_of "0") same_second
  = (mkResponse (JArr []) 200, same_second)
  ∧ ∃ recent, get_sensor_data (clock t0) (limit_of "-1") same_second
              = (mkResponse (JArr (reading_record <$> recent)) 200, same_second)
              ∧ recent ≡ₚ [row1; row2].
Proof.
  assert (io_fault (clock t0) = None) as Hio by evaluate.
  assert (db_table same_second = Some [row1; row2]) as Htab by evaluate.
  assert (args_get_int (limit_of "0") "limit" 100 = 0) as Hzero by evaluate.
  assert (args_get_int (limit_of "-1") "limit" 100 = -1) as Hneg by evaluate.
  split.
  - apply (get_sensor_data_nonpositive_limit (clock t0) (limit_of "0") same_second
             [row1; row2] Hio Htab); [by rewrite Hzero|exact Hzero].
  - apply (get_sensor_data_nonpositive_limit (clock t0) (limit_of "-1") same_second
             [row1; row2] Hio Htab); [by rewrite Hneg|by rewrite Hneg].
Defined.

(** [?limit=9223372036854775808]. *)
Lemma get_sensor_data_limit_overflow_witness :
  get_sensor_data (clock t0) (limit_of "9223372036854775808") one_reading
  = (failed "Python int too large to convert to SQLite INTEGER", one_reading).
Proof.
  assert (io_fault (clock t0) = None) as Hio by evaluate.
  assert (db_table one_reading = Some [row1]) as Htab by evaluate.
  assert (int64 (args_get_int (limit_of "9223372036854775808") "limit" 100) = false)
    as Hlim by evaluate.
  exact (get_sensor_data_limit_overflow (clock t0) (limit_of "9223372036854775808")
           one_reading [row1] Hio Htab Hlim).
Defined.

(** Limit 1 on a table of two readings. *)
Lemma recent_rows_are_newest_witness :
  ∃ recent omitted,
    get_sensor_data (clock t0) (limit_of "1") a_minute_later
    = (mkResponse (JArr (reading_record <$> recent)) 200, a_minute_later)
    ∧ recent ++ omitted ≡ₚ [row1; row2_later]
    ∧ (∀ r r', r ∈ recent → r' ∈ omitted → row_timestamp r' ≤ row_timestamp r)
    ∧ ((length [row1; row2_later] ≤ Z.to_nat (args_get_int (limit_of "1") "limit" 100))%nat
       → omitted = []).
Proof.
  assert (io_fault (clock t0) = None) as Hio by evaluate.
  assert (db_table a_minute_later = Some [row1; row2_later]) as Htab by evaluate.
  assert (int64 (args_get_int (limit_of "1") "limit" 100) = true) as Hlim by evaluate.
  assert (0 ≤ args_get_int (limit_of "1") "limit" 100) as Hpos
    by (vm_compute; discriminate).
  exact (recent_rows_are_newest (clock t0) (limit_of "1") a_minute_later
           [row1; row2_later] Hio Htab Hlim Hpos).
Defined.

(** Two readings a minute apart. *)
Lemma recent_is_reverse_when_seconds_distinct_witness :
  get_sensor_data (clock t0) (limit_of "2") a_minute_later
  = (mkResponse
       (JArr (reading_record <$>
                sql_limit (args_get_int (limit_of "2") "limit" 100)
                  (reverse [row1; row2_later])))
       200, a_minute_later)
  ∧ StronglySorted newest_first
      (sql_limit (args_get_int (limit_of "2") "limit" 100) (reverse [row1; row2_later])).
Proof.
  assert (io_fault (clock t0) = None) as Hio by evaluate.
  assert (db_table a_minute_later = Some [row1; row2_later]) as Htab by evaluate.
  assert (int64 (args_get_int (limit_of "2") "limit" 100) = true) as Hlim by evaluate.
  assert (StronglySorted (λ a b : Row Q, row_timestamp a < row_timestamp b)
            [row1; row2_later]) as Hts by (repeat constructor).
  exact (recent_is_reverse_when_seconds_distinct (clock t0) (limit_of "2")
           a_minute_later [row1; row2_later] Hio Htab Hlim Hts).
Defined.

(** Two readings of one second: both endpoints show the same one. *)
Lemma get_latest_is_first_recent_witness :
  ([row1; row2] = []
   ∧ get_latest (clock t0) same_second = (not_found, same_second)
   ∧ get_sensor_data (clock (t0 + 1)) (limit_of "1") same_second
     = (mkResponse (JArr []) 200, same_second))
  ∨ (∃ r, r ∈ [row1; row2]
       ∧ Forall (λ x, row_timestamp x ≤ row_timestamp r) [row1; row2]
       ∧ (ids_increasing [row1; row2] →
          Forall (λ x, row_timestamp x = row_timestamp r → row_id r ≤ row_id x)
            [row1; row2])
       ∧ get_latest (clock t0) same_second
         = (mkResponse (latest_record r) 200, same_second)
       ∧ get_sensor_data (clock (t0 + 1)) (limit_of "1") same_second
         = (mkResponse (JArr [reading_record r]) 200, same_second)).
Proof.
  assert (io_fault (clock t0) = None) as Hio by evaluate.
  assert (io_fault (clock (t0 + 1)) = None) as Hio' by evaluate.
  assert (db_table same_second = Some [row1; row2]) as Htab by evaluate.
  assert (args_get_int (limit_of "1") "limit" 100 = 1) as Hargs by evaluate.
  exact (get_latest_is_first_recent (clock t0) (clock (t0 + 1)) (limit_of "1")
           same_second [row1; row2] Hio Hio' Htab Hargs).
Defined.

(** A second reading in the second of the first. *)
Lemma latest_unchanged_within_second_witness :
  (get_latest (clock (t0 + 9)) same_second).1 = (get_latest (clock (t0 + 9)) one_reading).1
  ∧ status (get_latest (clock (t0 + 9)) one_reading).1 = 200.
Proof.
  assert (io_fault (clock (t0 + 9)) = None) as Hio by evaluate.
  assert (db_table one_reading = Some [row1]) as Htab by evaluate.
  assert (row1 ∈ [row1]) as Hin by (by left).
  assert (now (clock t0) ≤ row_timestamp row1) as Hnow by (vm_compute; discriminate).
  assert (receive_sensor_data (clock t0) (Json (JObj esp2)) one_reading
          = (created, same_second)) as Hrun by evaluate.
  exact (latest_unchanged_within_second (clock t0) (clock (t0 + 9)) (Json (JObj esp2))
           one_reading same_second [row1] row1 Hio Htab Hin Hnow Hrun).
Defined.

(** Two numeric payloads, one of them without temperature. *)
Lemma numeric_requests_keep_stats_working_witness :
  (∃ rows', db_table (serve_posts [(clock t0, Json (JObj esp1));
                                   (clock (t0 + 1), Json (JObj no_temperature))]
                        started) = Some rows'
            ∧ Forall measurements_numeric rows')
  ∧ ∀ env, io_fault env = None →
           status (get_stats env
                     (serve_posts [(clock t0, Json (JObj esp1));
                                   (clock (t0 + 1), Json (JObj no_temperature))]
                        started)).1 = 200.
Proof.
  assert (db_table started = Some []) as Htab by evaluate.
  assert (Forall (measurements_numeric (real:=Q)) []) as Hnum by constructor.
  assert (Forall (λ er : Env * Body Q, numeric_request er.2)
            [(clock t0, Json (JObj esp1));
             (clock (t0 + 1), Json (JObj no_temperature))]) as Hreqs.
  { repeat constructor; evaluate. }
  exact (numeric_requests_keep_stats_working _ started [] Htab Hnum Hreqs).
Defined.

(** A second reading, and the statistics ten seconds later. *)
Lemma post_counts_in_stats_witness :
  ∃ n,
    field (body (get_stats (clock (t0 + 10)) one_reading).1) "total_readings"
    = Some (JInt n)
    ∧ (now (clock (t0 + 10)) - 86400 ≤ now (clock t0) →
       field (body (get_stats (clock (t0 + 10)) same_second).1) "total_readings"
       = Some (JInt (n + 1)))
    ∧ (now (clock t0) < now (clock (t0 + 10)) - 86400 →
       field (body (get_stats (clock (t0 + 10)) same_second).1) "total_readings"
       = Some (JInt n)).
Proof.
  assert (io_fault (clock (t0 + 10)) = None) as Hio by evaluate.
  assert (db_table one_reading = Some [row1]) as Htab by evaluate.
  assert (receive_sensor_data (clock t0) (Json (JObj esp2)) one_reading
          = (created, same_second)) as Hrun by evaluate.
  assert (db_table same_second = Some [row1; row2]) as Htab' by evaluate.
  assert (Forall measurements_numeric [row1; row2]) as Hnum by (repeat constructor).
  exact (post_counts_in_stats (clock t0) (clock (t0 + 10)) (Json (JObj esp2))
           one_reading same_second [row1] [row1; row2] Hio Htab Hrun Htab' Hnum).
Defined.

(** A table whose only row holds the text "abc" as humidity. *)
Lemma get_stats_text_cell_witness :
  get_stats (clock (t0 + 10)) text_table
  = (failed "type str doesn't define __round__ method", text_table).
Proof.
  assert (io_fault (clock (t0 + 10)) = None) as Hio by evaluate.
  assert (db_table text_table = Some [text_row]) as Htab by evaluate.
  assert (text_row ∈ [text_row]) as Hin by (by left).
  assert (in_window (clock (t0 + 10)) text_row = true) as Hwin by evaluate.
  assert (nonempty_text (row_temperature text_row)
          ∨ nonempty_text (row_humidity text_row)
          ∨ nonempty_text (row_gas_analog text_row)) as Htext.
  { right. left. simpl. discriminate. }
  exact (get_stats_text_cell (clock (t0 + 10)) text_table [text_row] text_row
           Hio Htab Hin Hwin Htext).
Defined.

(** A payload whose humidity is the string "abc". *)
Lemma text_humidity_breaks_stats_witness :
  ∃ db', receive_sensor_data (clock t0) (Json (JObj text_humidity)) started
         = (created, db')
         ∧ get_stats (clock (t0 + 3600)) db'
           = (failed "type str doesn't define __round__ method", db').
Proof.
  assert (io_fault (clock t0) = None) as Hio by evaluate.
  assert (io_fault (clock (t0 + 3600)) = None) as Hio' by evaluate.
  assert (db_table started = Some []) as Htab by evaluate.
  assert (text_humidity !! "humidity" = Some (JStr "abc")) as Hh by evaluate.
  assert ("abc" ≠ "") as Hs by discriminate.
  assert (parse_num "abc" = None) as Hparse by evaluate.
  assert (encodable "abc" = true) as Henc by evaluate.
  assert (write_fault (clock t0) = None) as Hw by evaluate.
  assert (¬ unbindable (payload_device_id text_humidity)) as Hd
    by (vm_compute; discriminate).
  assert (¬ unbindable (payload_value text_humidity "temperature")) as Ht
    by (vm_compute; tauto).
  assert (¬ unbindable (payload_value text_humidity "gas_analog")) as Hga
    by (vm_compute; tauto).
  assert (¬ unbindable (payload_value text_humidity "gas_digital")) as Hgd
    by (vm_compute; tauto).
  assert (now (clock (t0 + 3600)) - 86400 ≤ now (clock t0)) as Hwin
    by (vm_compute; discriminate).
  exact (text_humidity_breaks_stats (clock t0) (clock (t0 + 3600)) text_humidity
           started [] "abc"
           Hio Hw Hio' Htab Hh Hs Hparse Henc Hd Ht Hga Hgd Hwin).
Defined.

(** Gas readings 150 and 300. *)
Lemma gas_max_is_largest_witness :
  ∃ gas m,
    field (body (get_stats (clock t0) same_second).1) "gas" = Some gas
    ∧ field gas "max" = Some (JInt m)
    ∧ (∃ r', r' ∈ filter (λ r, in_window (clock t0) r = true) [row1; row2]
             ∧ row_gas_analog r' = SInt m)
    ∧ Forall (λ r', ∀ z', row_gas_analog r' = SInt z' → z' ≤ m)
        (filter (λ r, in_window (clock t0) r = true) [row1; row2]).
Proof.
  assert (io_fault (clock t0) = None) as Hio by evaluate.
  assert (db_table same_second = Some [row1; row2]) as Htab by evaluate.
  assert (Forall measurements_numeric [row1; row2]) as Hnum by (repeat constructor).
  assert (filter (λ r : Row Q, in_window (clock t0) r = true) [row1; row2]
          = [row1; row2]) as Hwindow by evaluate.
  assert (Forall (λ r : Row Q, integer_or_null (row_gas_analog r))
            (filter (λ r : Row Q, in_window (clock t0) r = true) [row1; row2]))
    as Hint by (rewrite Hwindow; repeat constructor).
  assert (row1 ∈ filter (λ r : Row Q, in_window (clock t0) r = true) [row1; row2])
    as Hin by (rewrite Hwindow; by left).
  assert (row_gas_analog row1 = SInt 150) as Hz by evaluate.
  exact (gas_max_is_largest (clock t0) same_second [row1; row2] row1 150
           Hio Htab Hnum Hint Hin Hz).
Defined.


End MoreEvidence.
